(** * ChartDB canvas synchronisation: a shallow embedding

    The development follows the two React components of the source file:
    the side-panel field editor [TableField] and the diagram [Canvas].
    Hooks are read as plain records, calls on the domain store and on the
    rendering surface are recorded, in order, as a list of [Call]s, and
    JavaScript numbers are IEEE-754 doubles ([spec_float]). *)

From Stdlib Require Import ZArith Bool List Ascii String Floats.SpecFloat.
From stdpp Require Import base option list strings gmap pretty.

Local Open Scope string_scope.
Local Open Scope list_scope.

(** ** JavaScript values that can sit in a numeric slot *)

Module Js.

(** A JS [number] is a binary64 float. *)
Definition number : Type := spec_float.

Definition prec : Z := 53.
Definition emax : Z := 1024.

(** The literal [0]. *)
Definition zero : number := S754_zero false.

(** The double nearest to [m * 2^e]; integers up to 2^53 are exact. *)
Definition of_dyadic (m e : Z) : number := binary_normalize prec emax m e false.
Definition of_Z (z : Z) : number := of_dyadic z 0.

(** What a slot typed [number] may hold at run time. *)
Inductive value : Type :=
| Undefined
| Null
| Num (n : number).

(** [typeof v === 'number'] *)
Definition typeof_number (v : value) : bool :=
  match v with
  | Num _ => true
  | _ => false
  end.

(** The global [isNaN(v)]: the argument goes through [ToNumber] first,
    so [undefined] is NaN and [null] is 0. *)
Definition isNaN (v : value) : bool :=
  match v with
  | Undefined => true
  | Null => false
  | Num S754_nan => true
  | Num _ => false
  end.

(** [Number.isFinite(v)]: a number that is neither NaN nor an infinity. *)
Definition isFinite (v : value) : bool :=
  match v with
  | Num (S754_zero _) | Num (S754_finite _ _ _) => true
  | _ => false
  end.

(** [a ?? b] when the left operand came through an optional chain:
    [None] is a chain that short-circuited to [undefined]. *)
Definition nullish (a : option value) (b : value) : value :=
  match a with
  | Some (Num n) => Num n
  | _ => b
  end.

(** [Math.round] on numbers: the nearest integer, ties towards +infinity;
    a result of zero keeps the sign of the argument. *)
Definition round_number (n : number) : number :=
  match n with
  | S754_finite s m e =>
      if (0 <=? e)%Z then n
      else
        let v := cond_Zopp s (Zpos m) in
        let d := (2 ^ (- e))%Z in
        let r := ((2 * v + d) `div` (2 * d))%Z in
        if (r =? 0)%Z then S754_zero s else binary_normalize prec emax r 0 false
  | _ => n
  end.

(** [Math.round(v)] with the [ToNumber] coercion of its argument. *)
Definition Math_round (v : value) : value :=
  match v with
  | Undefined => Num S754_nan
  | Null => Num zero
  | Num n => Num (round_number n)
  end.

(** Truthiness of an optional boolean flag ([undefined] is falsy). *)
Definition truthy (b : option bool) : bool :=
  match b with
  | Some true => true
  | _ => false
  end.

(** [s.split(sep)] for a one-character separator; never empty. *)
Fixpoint split (sep : ascii) (s : string) : list string :=
  match s with
  | EmptyString => [EmptyString]
  | String c s' =>
      if Ascii.eqb c sep then EmptyString :: split sep s'
      else match split sep s' with
           | h :: t => String c h :: t
           | [] => [String c EmptyString]
           end
  end.

(** [arr.pop()]: the last element, [undefined] on an empty array. *)
Definition pop {A} (l : list A) : option A := last l.

(** [s.startsWith(p)] *)
Definition startsWith (s p : string) : bool := String.prefix p s.

End Js.

(** ** Domain entities *)

Module DataType.
Record t : Type := mk { id : string; name : string }.
End DataType.

Module DBField.
Record t : Type := mk {
  id : string;
  name : string;
  type : DataType.t;
  characterMaximumLength : option string;
  unique : bool;
  primaryKey : bool;
  nullable : bool;
  comments : option string;
}.

(** [Partial<DBField>]: every attribute may be absent. *)
Record partial : Type := mkPartial {
  p_name : option string;
  p_type : option DataType.t;
  p_characterMaximumLength : option string;
  p_unique : option bool;
  p_primaryKey : option bool;
  p_nullable : option bool;
}.

Definition empty : partial := mkPartial None None None None None None.

(** [{ ...field, ...attrs }] *)
Definition spread (f : t) (a : partial) : t :=
  {| id := id f;
     name := default (name f) (p_name a);
     type := default (type f) (p_type a);
     characterMaximumLength :=
       match p_characterMaximumLength a with
       | Some c => Some c
       | None => characterMaximumLength f
       end;
     unique := default (unique f) (p_unique a);
     primaryKey := default (primaryKey f) (p_primaryKey a);
     nullable := default (nullable f) (p_nullable a);
     comments := comments f |}.
End DBField.

Module DBTable.
Record t : Type := mk {
  id : string;
  x : Js.value;
  y : Js.value;
  width : option Js.number;
  schema : option string;
  fields : list DBField.t;
}.
End DBTable.

Module Area.
Record t : Type := mk {
  id : string;
  x : Js.value;
  y : Js.value;
  width : Js.number;
  height : Js.number;
}.

(** [Partial<Area>] as built by the node-change handler. *)
Record partial : Type := mkPartial {
  p_x : option Js.value;
  p_y : option Js.value;
  p_width : option Js.value;
  p_height : option Js.value;
}.
End Area.

Module DBRelationship.
Record t : Type := mk {
  id : string;
  sourceTableId : string;
  sourceFieldId : string;
  targetTableId : string;
  targetFieldId : string;
}.
End DBRelationship.

Module DBDependency.
Record t : Type := mk {
  id : string;
  tableId : string;
  dependentTableId : string;
}.
End DBDependency.

(** ** Rendering-facing records *)

Record XYPosition : Type := mkXY { x : Js.value; y : Js.value }.

(** [node.measured] and the payload of a dimension change. *)
Record Dimensions : Type := mkDim { width : option Js.value; height : option Js.value }.

Module Node.
(** [NodeType['type']] *)
Inductive kind : Type := table | area.

Global Instance kind_eq_dec : EqDecision kind.
Proof. solve_decision. Defined.

(** [node.data] of a table node and of an area node. *)
Inductive data : Type :=
| TableData (table : DBTable.t) (isOverlapping : bool)
    (highlightOverlappingTables : option bool)
| AreaData (area : Area.t).

Record t : Type := mk {
  id : string;
  position : option XYPosition;
  payload : data;
  width : option Js.number;
  height : option Js.number;
  measured : option Dimensions;
  draggable : option bool;
  hidden : option bool;
  selected : option bool;
  dragging : option bool;
  resizing : option bool;
  zIndex : option Z;
}.

(** [node.type]: the union [TableNodeType | AreaNodeType] ties the tag
    to the shape of [data]. *)
Definition type (n : t) : kind :=
  match payload n with
  | TableData _ _ _ => table
  | AreaData _ => area
  end.

(** Assignments to single properties of a node. *)
Definition set_position (p : option XYPosition) (n : t) : t :=
  mk (id n) p (payload n) (width n) (height n) (measured n) (draggable n)
     (hidden n) (selected n) (dragging n) (resizing n) (zIndex n).
Definition set_measured (m : option Dimensions) (n : t) : t :=
  mk (id n) (position n) (payload n) (width n) (height n) m (draggable n)
     (hidden n) (selected n) (dragging n) (resizing n) (zIndex n).
Definition set_selected (b : option bool) (n : t) : t :=
  mk (id n) (position n) (payload n) (width n) (height n) (measured n)
     (draggable n) (hidden n) b (dragging n) (resizing n) (zIndex n).
Definition set_dragging (b : option bool) (n : t) : t :=
  mk (id n) (position n) (payload n) (width n) (height n) (measured n)
     (draggable n) (hidden n) (selected n) b (resizing n) (zIndex n).
Definition set_resizing (b : option bool) (n : t) : t :=
  mk (id n) (position n) (payload n) (width n) (height n) (measured n)
     (draggable n) (hidden n) (selected n) (dragging n) b (zIndex n).
Definition set_payload (d : data) (n : t) : t :=
  mk (id n) (position n) d (width n) (height n) (measured n) (draggable n)
     (hidden n) (selected n) (dragging n) (resizing n) (zIndex n).
End Node.

Module Edge.
(** [EdgeType['type']] *)
Inductive kind : Type := relationship_edge | dependency_edge.

Inductive data : Type :=
| RelationshipData (relationship : DBRelationship.t) (highlighted : option bool)
| DependencyData (dependency : DBDependency.t) (highlighted : option bool).

Record t : Type := mk {
  id : string;
  source : string;
  target : string;
  sourceHandle : string;
  targetHandle : string;
  payload : data;
  hidden : option bool;
  selected : option bool;
  animated : option bool;
  zIndex : option Z;
}.

(** [edge.type], tied to the shape of [data] by the union [EdgeType]. *)
Definition type (e : t) : kind :=
  match payload e with
  | RelationshipData _ _ => relationship_edge
  | DependencyData _ _ => dependency_edge
  end.

(** [edge.data.highlighted] *)
Definition highlighted (e : t) : option bool :=
  match payload e with
  | RelationshipData _ h => h
  | DependencyData _ h => h
  end.
End Edge.

(** [NodeChange<NodeType>] of the rendering surface. A position change that
    went through the handler also carries the node's [measured]. *)
Module NodeChange.
Inductive t : Type :=
| position (id : string) (position : option XYPosition) (dragging : option bool)
    (measured : option Dimensions)
| dimensions (id : string) (dimensions : option Dimensions) (resizing : option bool)
| select (id : string) (selected : bool)
| remove (id : string)
| add (item : Node.t)
| replace (id : string) (item : Node.t).

(** [change.type === 'remove'] and its siblings. *)
Definition is_remove (c : t) : bool :=
  match c with remove _ => true | _ => false end.
Definition is_position (c : t) : bool :=
  match c with position _ _ _ _ => true | _ => false end.
Definition is_dimensions (c : t) : bool :=
  match c with dimensions _ _ _ => true | _ => false end.

(** [change.id], for the kinds that are looked up by it. *)
Definition id (c : t) : string :=
  match c with
  | position i _ _ _ | dimensions i _ _ | select i _ | remove i | replace i _ => i
  | add item => Node.id item
  end.
End NodeChange.

Module EdgeChange.
Inductive t : Type :=
| select (id : string) (selected : bool)
| remove (id : string)
| add (item : Edge.t)
| replace (id : string) (item : Edge.t).

Definition is_remove (c : t) : bool :=
  match c with remove _ => true | _ => false end.
End EdgeChange.

(** The connect gesture, [Connection]. *)
Record Connection : Type := mkConnection {
  conn_source : string;
  conn_target : string;
  conn_sourceHandle : option string;
  conn_targetHandle : option string;
}.

(** [Graph<string>] of the overlap engine. *)
Record Graph : Type := mkGraph {
  graph : gmap string (list string);
  lastUpdated : Z;
}.

(** ** The hooks, read as records *)

(** The query side of [useChartDB()]. *)
Record ChartDB (DatabaseType : Type) : Type := mkChartDB {
  tables : list DBTable.t;
  areas : list Area.t;
  relationships : list DBRelationship.t;
  dependencies : list DBDependency.t;
  getField : string -> string -> option DBField.t;
  databaseType : DatabaseType;
  filteredSchemas : option (list string);
  readonly : bool;
}.
Arguments mkChartDB {_} _ _ _ _ _ _ _ _.
Arguments tables {_} _.
Arguments areas {_} _.
Arguments relationships {_} _.
Arguments dependencies {_} _.
Arguments getField {_} _ _ _.
Arguments databaseType {_} _.
Arguments filteredSchemas {_} _.
Arguments readonly {_} _.

(** [useReactFlow()]: the rendering surface's store. *)
Record ReactFlow : Type := mkReactFlow {
  getNode : string -> option Node.t;
  getEdge : string -> option Edge.t;
  getEdges : list Edge.t;
}.

(** The relationship and dependency attributes handed to the store. *)
Record NewRelationship : Type := mkNewRelationship {
  nr_sourceTableId : string;
  nr_targetTableId : string;
  nr_sourceFieldId : string;
  nr_targetFieldId : string;
}.

Record ToastProps : Type := mkToast {
  toast_title : string;
  toast_variant : string;
  toast_description : string;
}.

(** ** Calls on the collaborators

    Every call a handler makes on the domain mutation surface, on the
    rendering surface or on the notification surface, in program order. *)
Inductive Call : Type :=
| updateTablesState (updater : list DBTable.t -> list DBTable.t)
| updateOverlappingGraphOnChangesDebounced
    (positionChanges sizeChanges : list NodeChange.t)
| updateArea (id : string) (attrs : Area.partial)
| removeArea (id : string)
| removeRelationships (ids : list string)
| removeDependencies (ids : list string)
| createRelationship (r : NewRelationship)
| createDependency (tableId dependentTableId : string)
| toast (props : ToastProps)
| onNodesChange (changes : list NodeChange.t)
| onEdgesChange (changes : list EdgeChange.t).

Definition is_updateTablesState (c : Call) : bool :=
  match c with updateTablesState _ => true | _ => false end.
Definition is_overlapTrigger (c : Call) : bool :=
  match c with updateOverlappingGraphOnChangesDebounced _ _ => true | _ => false end.
Definition is_removeArea (c : Call) : bool :=
  match c with removeArea _ => true | _ => false end.
Definition is_removeRelationships (c : Call) : bool :=
  match c with removeRelationships _ => true | _ => false end.
Definition is_removeDependencies (c : Call) : bool :=
  match c with removeDependencies _ => true | _ => false end.
Definition is_createRelationship (c : Call) : bool :=
  match c with createRelationship _ => true | _ => false end.
Definition is_toast (c : Call) : bool :=
  match c with toast _ => true | _ => false end.

(** The updaters handed to [updateTablesState] by a list of calls. *)
Definition domainPatches (cs : list Call) : list (list DBTable.t -> list DBTable.t) :=
  flat_map (fun c => match c with updateTablesState u => [u] | _ => [] end) cs.

(** ** The field editor, [TableField] *)

(** [lodash.debounce(fn, wait)] with the default trailing edge: a call only
    replaces the pending arguments, the timer hands the latest ones to
    [fn], and [cancel()] drops them. The wait itself is not modelled: the
    timer may fire between any two events. *)
Module Debounced.
Definition t (A : Type) : Type := option A.

Definition init {A} : t A := None.
Definition call {A} (args : A) (d : t A) : t A := Some args.
Definition cancel {A} (d : t A) : t A := None.

(** The timer fires: the invocations of [fn] and the state left. *)
Definition fire {A} (d : t A) : list A * t A :=
  match d with
  | Some args => ([args], None)
  | None => ([], None)
  end.
End Debounced.

Module TableField.

(** Arguments passed to [debouncedUpdateRef.current] by each handler. *)

Definition handleFieldNameChange (newValue : string) : list DBField.partial :=
  [DBField.mkPartial (Some newValue) None None None None None].

(** [onPressedChange] of the nullable toggle. *)
Definition onNullablePressedChange (value : bool) : list DBField.partial :=
  [DBField.mkPartial None None None None None (Some value)].

(** [onPressedChange] of the primary-key toggle. *)
Definition onPrimaryKeyPressedChange (value : bool) : list DBField.partial :=
  [DBField.mkPartial None None None (Some value) (Some value) None].

(** What can happen to a mounted field row. *)
Inductive event : Type :=
| NameInput (newValue : string)
| NullableToggle (value : bool)
| PrimaryKeyToggle (value : bool)
| TimerFires
| Unmount.

Record state : Type := mkState {
  localName : string;
  debouncedUpdate : Debounced.t DBField.partial;
}.

Definition mount (field : DBField.t) : state :=
  mkState (DBField.name field) Debounced.init.

Definition callAll (args : list DBField.partial) (d : Debounced.t DBField.partial)
  : Debounced.t DBField.partial :=
  foldl (fun d a => Debounced.call a d) d args.

(** One event: the calls of [updateField] it causes and the next state. *)
Definition step (st : state) (ev : event) : list DBField.partial * state :=
  match ev with
  | NameInput v =>
      ([], mkState v (callAll (handleFieldNameChange v) (debouncedUpdate st)))
  | NullableToggle v =>
      ([], mkState (localName st)
             (callAll (onNullablePressedChange v) (debouncedUpdate st)))
  | PrimaryKeyToggle v =>
      ([], mkState (localName st)
             (callAll (onPrimaryKeyPressedChange v) (debouncedUpdate st)))
  | TimerFires =>
      let '(calls, d) := Debounced.fire (debouncedUpdate st) in
      (calls, mkState (localName st) d)
  | Unmount =>
      ([], mkState (localName st) (Debounced.cancel (debouncedUpdate st)))
  end.

(** All [updateField] calls of a run, in order. *)
Fixpoint run (st : state) (evs : list event) : list DBField.partial :=
  match evs with
  | [] => []
  | ev :: evs' => let '(calls, st') := step st ev in calls ++ run st' evs'
  end.

End TableField.

(** ** The diagram, [Canvas] *)

(** [arr.includes(s)] on arrays of ids. *)
Definition includes (l : list string) (s : string) : bool :=
  existsb (String.eqb s) l.

(** A coordinate is kept when it is [typeof 'number'] and not NaN. *)
Definition validCoordinate (v : Js.value) : bool :=
  Js.typeof_number v && negb (Js.isNaN v).

(** The counters are plain objects created by [{}]: the key ["__proto__"]
    is the accessor inherited from [Object.prototype], never a property of
    the object itself. Writing a number to it stores nothing, and reading
    it yields the prototype object. *)
Definition isProtoKey (key : string) : bool := String.eqb key "__proto__".

(** [acc[key]++] on a [Record<string, number>]: the value read and the
    record afterwards. A missing key reads [undefined], and ["__proto__"]
    reads an object; the increment turns both into NaN, here [None], and
    for ["__proto__"] the write back is dropped. A missing key is written
    back as NaN, which reads as NaN again: it is left absent here, and
    yields the same indexes. *)
Definition postIncrement (key : string) (acc : gmap string nat)
  : option nat * gmap string nat :=
  if isProtoKey key then (None, acc)
  else match acc !! key with
       | Some i => (Some i, <[key := S i]> acc)
       | None => (None, acc)
       end.

(** A counter as it prints inside a template literal. *)
Definition indexText (i : option nat) : string :=
  match i with
  | Some n => pretty n
  | None => "NaN"
  end.

(** [list.map(a => f(a, counters[key(a)]++))], threading the counters. *)
Fixpoint mapCounting {A B} (key : A -> string) (f : A -> option nat -> B)
    (l : list A) (counters : gmap string nat) : list B :=
  match l with
  | [] => []
  | a :: l' =>
      let '(i, counters') := postIncrement (key a) counters in
      f a i :: mapCounting key f l' counters'
  end.

(** [list.reduce((acc, a) => { acc[key(a)] = 0; return acc }, {})] *)
Definition zeroCounters {A} (key : A -> string) (l : list A) : gmap string nat :=
  foldl (fun acc a => if isProtoKey (key a) then acc else <[key a := 0]> acc) ∅ l.

(** The key of a relationship in [targetIndexes]: the two ids, concatenated. *)
Definition targetKey (r : DBRelationship.t) : string :=
  DBRelationship.targetTableId r +:+ DBRelationship.targetFieldId r.

(** How many entries of [l] have key [k]. *)
Definition countKey {A} (key : A -> string) (k : string) (l : list A) : nat :=
  length (List.filter (fun a => String.eqb (key a) k) l).

(** The [(targetTableId, targetFieldId)] pair of a relationship. *)
Definition targetPair (r : DBRelationship.t) : string * string :=
  (DBRelationship.targetTableId r, DBRelationship.targetFieldId r).

(** The handle index each entry receives, in input order. *)
Definition handleIndexes {A} (key : A -> string) (l : list A) : list (option nat) :=
  mapCounting key (fun _ i => i) l (zeroCounters key l).

(** ** The rest of the field editor *)

(** The comparator handed to [React.memo]: the row is rendered again only
    when it answers [false]. *)
Definition propsAreEqual (prev next : DBField.t) : bool :=
  String.eqb (DBField.id prev) (DBField.id next)
  && String.eqb (DBField.name prev) (DBField.name next)
  && String.eqb (DataType.id (DBField.type prev)) (DataType.id (DBField.type next))
  && bool_decide (DBField.characterMaximumLength prev
                  = DBField.characterMaximumLength next)
  && Bool.eqb (DBField.unique prev) (DBField.unique next)
  && Bool.eqb (DBField.primaryKey prev) (DBField.primaryKey next)
  && Bool.eqb (DBField.nullable prev) (DBField.nullable next)
  && bool_decide (DBField.comments prev = DBField.comments next).

(** The arguments an edit hands to the debounced writer; [None] for the
    timer and for the unmount. *)
Definition editArgs (ev : TableField.event) : option DBField.partial :=
  match ev with
  | TableField.NameInput v => last (TableField.handleFieldNameChange v)
  | TableField.NullableToggle v => last (TableField.onNullablePressedChange v)
  | TableField.PrimaryKeyToggle v => last (TableField.onPrimaryKeyPressedChange v)
  | TableField.TimerFires | TableField.Unmount => None
  end.

Definition isTimerFires (ev : TableField.event) : bool :=
  match ev with TableField.TimerFires => true | _ => false end.

(** The state of the row after a run. *)
Definition stateAfter (st : TableField.state) (evs : list TableField.event)
  : TableField.state :=
  foldl (fun st ev => (TableField.step st ev).2) st evs.

(** An entry of [sortedDataTypeMap[databaseType]]. *)
Record DataTypeData : Type := mkDataTypeData {
  dtd_id : string;
  dtd_name : string;
  dtd_hasCharMaxLength : option bool;
}.

(** The update built by [handleDataTypeChange]. The length key can be
    present and hold [undefined] (a match array without a group), so it is
    an option inside an option. *)
Record TypeUpdate : Type := mkTypeUpdate {
  tu_type : DataType.t;
  tu_characterMaximumLength : option (option string);
}.

(** Truthiness of a string that may be [undefined]. *)
Definition truthyString (s : option string) : bool :=
  match s with
  | Some (String _ _) => true
  | _ => false
  end.

(** [handleDataTypeChange]; the dialect's type list and the conversion
    [dataTypeDataToDataType] are imports. [regexMatches] is [None] when
    the select box passes no match array. *)
Definition handleDataTypeChange (types : list DataTypeData)
    (dataTypeDataToDataType : DataTypeData -> DataType.t) (field : DBField.t)
    (value : string) (regexMatches : option (list string)) : TypeUpdate :=
  let dataType :=
    default (mkDataTypeData value value None)
      (List.find (fun v => String.eqb (dtd_id v) value) types) in
  let hasCharMaxLength := Js.truthy (dtd_hasCharMaxLength dataType) in
  {| tu_type := dataTypeDataToDataType dataType;
     tu_characterMaximumLength :=
       if match regexMatches with
          | Some ms => (0 <? length ms)%nat
          | None => false
          end && hasCharMaxLength
       then Some (regexMatches ≫= fun ms => nth_error ms 1)
       else if truthyString (DBField.characterMaximumLength field) && hasCharMaxLength
            then Some (DBField.characterMaximumLength field)
            else None |}.

(** ** Writes of the canvas to its own state *)

Inductive StateWrite : Type :=
| setOverlapGraph (g : Graph)
  (** [setNodes] with the updater of the field events: the node of the
      table gets [measured] recorded in its [data]. *)
| setNodesDataMeasured (tableId : string) (measured : Dimensions).

Definition is_setOverlapGraph (w : StateWrite) : bool :=
  match w with setOverlapGraph _ => true | _ => false end.

(** [ChartDBEvent], as far as the consumer reads it. *)
Inductive ChartDBEvent : Type :=
| add_tables (tables : list DBTable.t)
| remove_tables (tableIds : list string)
| add_field (tableId : string) (fields : list DBField.t)
| remove_field (tableId : string) (fields : list DBField.t)
| update_table (id : string) (width : option Js.number)
| load_diagram (tables : option (list DBTable.t))
| other_action (action : string).

(** Truthiness of a number that may be [undefined]: 0, -0 and NaN are
    falsy. *)
Definition truthyNumber (n : option Js.number) : bool :=
  match n with
  | Some (S754_finite _ _ _) | Some (S754_infinity _) => true
  | _ => false
  end.

(** ** Sample diagrams

    Concrete values for the imported constants and small diagrams, used by
    the examples that close the development. *)

Module Sample.

Inductive Dialect : Type := generic | postgresql | clickhouse.

Global Instance Dialect_eq_dec : EqDecision Dialect.
Proof. solve_decision. Defined.

Definition MIN_TABLE_SIZE : Js.number := Js.of_Z 224.
Definition LEFT_HANDLE_ID_PREFIX : string := "left_rel_".
Definition TARGET_ID_PREFIX : string := "target_rel_".
Definition TOP_SOURCE_HANDLE_ID_PREFIX : string := "top_dep_".
Definition BOTTOM_SOURCE_HANDLE_ID_PREFIX : string := "bottom_dep_".
Definition TARGET_DEP_PREFIX : string := "target_dep_".

Definition showEveryTable (_ : DBTable.t) (_ : option (list string)) : bool := true.

Definition sameTypeId (a b : DataType.t) (_ : Dialect) : bool :=
  String.eqb (DataType.id a) (DataType.id b).

Definition NaN : Js.value := Js.Num S754_nan.
Definition plusInfinity : Js.value := Js.Num (S754_infinity false).
Definition num (z : Z) : Js.value := Js.Num (Js.of_Z z).

(** Tables. *)
Definition users : DBTable.t :=
  DBTable.mk "users" (num 10) (num 10) None None [].
Definition orders : DBTable.t :=
  DBTable.mk "orders" (num 300) (num 40) None None [].
Definition tableAtInfinity : DBTable.t :=
  DBTable.mk "far" plusInfinity (num 0) None None [].
Definition tableNaN : DBTable.t :=
  DBTable.mk "lost" NaN Js.Undefined None None [].

(** An area whose [x] is NaN. *)
Definition areaNaN : Area.t :=
  Area.mk "zone" NaN (num 0) (Js.of_Z 100) (Js.of_Z 50).

(** Nodes of the rendering surface. *)
Definition tableNode (table : DBTable.t) (pos : XYPosition) (selected : option bool)
  : Node.t :=
  Node.mk (DBTable.id table) (Some pos) (Node.TableData table false None)
    (Some MIN_TABLE_SIZE) None None (Some true) (Some false) selected None None None.

Definition usersNode : Node.t := tableNode users (mkXY (num 5) (num 5)) (Some true).
Definition ordersNode : Node.t := tableNode orders (mkXY (num 300) (num 40)) None.
Definition lostNode : Node.t := tableNode tableNaN (mkXY (num 7) Js.Null) None.

(** [users] while it is being dragged, with measured dimensions. *)
Definition usersMeasured : Dimensions := mkDim (Some (num 224)) (Some (num 120)).
Definition usersNodeDragged : Node.t :=
  Node.mk "users" (Some (mkXY (num 8) (num 9))) (Node.TableData users false None)
    (Some MIN_TABLE_SIZE) None (Some usersMeasured) (Some true) (Some false)
    (Some true) (Some true) None None.

Definition zoneNode : Node.t :=
  Node.mk "zone" (Some (mkXY (num 0) (num 0))) (Node.AreaData areaNaN)
    (Some (Js.of_Z 100)) (Some (Js.of_Z 50)) None None None None None None
    (Some (-10)%Z).

(** Two relationships that target different (table, field) pairs whose
    ids concatenate to the same text. *)
Definition relIntoAbC : DBRelationship.t :=
  DBRelationship.mk "r1" "users" "id" "ab" "c".
Definition relIntoABc : DBRelationship.t :=
  DBRelationship.mk "r2" "orders" "id" "a" "bc".

Definition ordersToUsers : DBRelationship.t :=
  DBRelationship.mk "r3" "orders" "userid" "users" "id".

Definition ordersDependsOnUsers : DBDependency.t :=
  DBDependency.mk "d1" "users" "orders".

(** Two dependencies on [users], and two on a table whose id is
    ["__proto__"]. *)
Definition farDependsOnUsers : DBDependency.t :=
  DBDependency.mk "d2" "users" "far".
Definition usersDependsOnProto : DBDependency.t :=
  DBDependency.mk "d3" "__proto__" "users".
Definition ordersDependsOnProto : DBDependency.t :=
  DBDependency.mk "d4" "__proto__" "orders".
Definition mixedDependencies : list DBDependency.t :=
  [ordersDependsOnUsers; usersDependsOnProto; farDependsOnUsers; ordersDependsOnProto].

Definition ordersToUsersEdge : Edge.t :=
  Edge.mk "r3" "orders" "users" "left_rel_userid" "target_rel_0_id"
    (Edge.RelationshipData ordersToUsers None) None None None None.

Definition ordersDependsOnUsersEdge : Edge.t :=
  Edge.mk "d1" "orders" "users" "top_dep_orders" "target_dep_0_users"
    (Edge.DependencyData ordersDependsOnUsers None) (Some true) None None None.

(** Fields and the lookup of the store. *)
Definition intType : DataType.t := DataType.mk "int" "int".
Definition textType : DataType.t := DataType.mk "text" "text".

Definition usersId : DBField.t :=
  DBField.mk "id" "id" intType None true true false None.
Definition ordersUserId : DBField.t :=
  DBField.mk "userid" "user_id" intType None false false true None.
Definition ordersNote : DBField.t :=
  DBField.mk "note" "note" textType None false false true None.

Definition lookupField (tableId fieldId : string) : option DBField.t :=
  if String.eqb tableId "users" && String.eqb fieldId "id" then Some usersId
  else if String.eqb tableId "orders" && String.eqb fieldId "userid"
       then Some ordersUserId
  else if String.eqb tableId "orders" && String.eqb fieldId "note"
       then Some ordersNote
  else None.

Definition diagram (dialect : Dialect) (readonly : bool) : ChartDB Dialect :=
  mkChartDB [users; orders] [areaNaN] [ordersToUsers] [ordersDependsOnUsers]
    lookupField dialect None readonly.

Definition surface : ReactFlow :=
  mkReactFlow
    (fun id => if String.eqb id "users" then Some usersNode
               else if String.eqb id "orders" then Some ordersNode
               else if String.eqb id "lost" then Some lostNode
               else if String.eqb id "zone" then Some zoneNode
               else None)
    (fun id => if String.eqb id "r3" then Some ordersToUsersEdge
               else if String.eqb id "d1" then Some ordersDependsOnUsersEdge
               else None)
    [ordersToUsersEdge; ordersDependsOnUsersEdge].

(** 10.5 and 20.25 as doubles. *)
Definition tenAndHalf : Js.value := Js.Num (Js.of_dyadic 21 (-1)).
Definition twentyAndQuarter : Js.value := Js.Num (Js.of_dyadic 81 (-2)).

(** A drag of [users]: two moves with the flag set, then the release. *)
Definition dragMove : NodeChange.t :=
  NodeChange.position "users" (Some (mkXY (num 8) (num 9))) (Some true) None.
Definition dragRelease : NodeChange.t :=
  NodeChange.position "users" (Some (mkXY tenAndHalf twentyAndQuarter))
    (Some false) None.

(** A field-to-field gesture and its handles. *)
Definition connectNoteToId : Connection :=
  mkConnection "orders" "users" (Some "left_rel_note") (Some "target_rel_0_id").
Definition connectUserIdToId : Connection :=
  mkConnection "orders" "users" (Some "left_rel_userid") (Some "target_rel_0_id").

(** Stand-ins for the overlap engine and the table geometry. *)
Definition markOverlapping (node : Node.t) (_ : list Node.t) (g : Graph) : Graph :=
  mkGraph (<[Node.id node := [Node.id node]]> (graph g)) (lastUpdated g + 1).
Definition noOverlaps (_ : list DBTable.t) : Graph := mkGraph ∅ 0.
Definition dropVertex (g : Graph) (id : string) : Graph :=
  mkGraph (delete id (graph g)) (lastUpdated g + 1).
Definition rowsHeight (fields : nat) : Js.number := Js.of_Z (40 + 32 * Z.of_nat fields).

Definition usersOverOrders : Graph :=
  mkGraph (<["users" := ["orders"]]> (<["orders" := ["users"]]> ∅)) 1.

(** The store while ["users"] is being dragged. *)
Definition surfaceWhileDragging : ReactFlow :=
  mkReactFlow
    (fun id => if String.eqb id "users" then Some usersNodeDragged
               else if String.eqb id "orders" then Some ordersNode
               else None)
    (getEdge surface) (getEdges surface).

Definition resizeUsers (resizing : bool) : NodeChange.t :=
  NodeChange.dimensions "users" (Some usersMeasured) (Some resizing).
Definition releaseZone : NodeChange.t :=
  NodeChange.position "zone" (Some (mkXY tenAndHalf NaN)) (Some false) None.
Definition moveGhost : NodeChange.t :=
  NodeChange.position "ghost" (Some (mkXY (num 1) (num 2))) (Some false) None.

(** A dialect with a sized and an unsized type. *)
Definition varcharData : DataTypeData := mkDataTypeData "varchar" "varchar" (Some true).
Definition intData : DataTypeData := mkDataTypeData "int" "int" None.
Definition toDataType (d : DataTypeData) : DataType.t :=
  DataType.mk (dtd_id d) (dtd_name d).

(** [usersId] with another display name for its type. *)
Definition usersIdRenamedType : DBField.t :=
  DBField.mk "id" "id" (DataType.mk "int" "integer") None true true false None.

End Sample.

Section Canvas.

(** Imports of the canvas module declared elsewhere in the repository:
    they are parameters of the development. *)
Context {DatabaseType : Type} `{!EqDecision DatabaseType}.
Variable CLICKHOUSE : DatabaseType.
Variable MIN_TABLE_SIZE : Js.number.
Variables LEFT_HANDLE_ID_PREFIX TARGET_ID_PREFIX : string.
Variables TOP_SOURCE_HANDLE_ID_PREFIX BOTTOM_SOURCE_HANDLE_ID_PREFIX : string.
Variable TARGET_DEP_PREFIX : string.
Variable shouldShowTablesBySchemaFilter : DBTable.t -> option (list string) -> bool.
Variable areFieldTypesCompatible : DataType.t -> DataType.t -> DatabaseType -> bool.

(** *** Node projection *)

Definition tableToTableNode (table : DBTable.t) (filteredSchemas : option (list string))
  : Node.t :=
  {| Node.id := DBTable.id table;
     Node.position :=
       Some {| x := if validCoordinate (DBTable.x table)
                    then DBTable.x table else Js.Num Js.zero;
               y := if validCoordinate (DBTable.y table)
                    then DBTable.y table else Js.Num Js.zero |};
     Node.payload := Node.TableData table false None;
     Node.width := Some (default MIN_TABLE_SIZE (DBTable.width table));
     Node.height := None;
     Node.measured := None;
     Node.draggable := Some true;
     Node.hidden := Some (negb (shouldShowTablesBySchemaFilter table filteredSchemas));
     Node.selected := None;
     Node.dragging := None;
     Node.resizing := None;
     Node.zIndex := None |}.

Definition areaToAreaNode (area : Area.t) : Node.t :=
  {| Node.id := Area.id area;
     Node.position := Some {| x := Area.x area; y := Area.y area |};
     Node.payload := Node.AreaData area;
     Node.width := Some (Area.width area);
     Node.height := Some (Area.height area);
     Node.measured := None;
     Node.draggable := None;
     Node.hidden := None;
     Node.selected := None;
     Node.dragging := None;
     Node.resizing := None;
     Node.zIndex := Some (-10)%Z |}.

(** The initial value of [useNodesState]: the projection, with the position
    assigned once more through the same test. *)
Definition initialNodes (initialTables : list DBTable.t)
    (filteredSchemas : option (list string)) : list Node.t :=
  map (fun table =>
         let node := tableToTableNode table filteredSchemas in
         Node.set_position
           (Some {| x := if validCoordinate (DBTable.x table)
                         then DBTable.x table else Js.Num Js.zero;
                    y := if validCoordinate (DBTable.y table)
                         then DBTable.y table else Js.Num Js.zero |}) node)
      initialTables.

(** *** Edge projection (the effect on [relationships], [dependencies]) *)

Definition relationshipToEdge (relationship : DBRelationship.t) (index : option nat)
  : Edge.t :=
  {| Edge.id := DBRelationship.id relationship;
     Edge.source := DBRelationship.sourceTableId relationship;
     Edge.target := DBRelationship.targetTableId relationship;
     Edge.sourceHandle :=
       LEFT_HANDLE_ID_PREFIX +:+ DBRelationship.sourceFieldId relationship;
     Edge.targetHandle :=
       TARGET_ID_PREFIX +:+ indexText index +:+ "_"
         +:+ DBRelationship.targetFieldId relationship;
     Edge.payload := Edge.RelationshipData relationship None;
     Edge.hidden := None;
     Edge.selected := None;
     Edge.animated := None;
     Edge.zIndex := None |}.

Definition dependencyToEdge (showDependenciesOnCanvas : bool)
    (databaseType : DatabaseType) (dep : DBDependency.t) (index : option nat) : Edge.t :=
  {| Edge.id := DBDependency.id dep;
     Edge.source := DBDependency.dependentTableId dep;
     Edge.target := DBDependency.tableId dep;
     Edge.sourceHandle :=
       TOP_SOURCE_HANDLE_ID_PREFIX +:+ DBDependency.dependentTableId dep;
     Edge.targetHandle :=
       TARGET_DEP_PREFIX +:+ indexText index +:+ "_" +:+ DBDependency.tableId dep;
     Edge.payload := Edge.DependencyData dep None;
     Edge.hidden :=
       Some (negb showDependenciesOnCanvas
             && negb (bool_decide (databaseType = CLICKHOUSE)));
     Edge.selected := None;
     Edge.animated := None;
     Edge.zIndex := None |}.

Definition relationshipsToEdges (relationships : list DBRelationship.t) : list Edge.t :=
  let targetIndexes := zeroCounters targetKey relationships in
  mapCounting targetKey relationshipToEdge relationships targetIndexes.

Definition dependenciesToEdges (showDependenciesOnCanvas : bool)
    (databaseType : DatabaseType) (dependencies : list DBDependency.t) : list Edge.t :=
  let targetDepIndexes := zeroCounters DBDependency.tableId dependencies in
  mapCounting DBDependency.tableId
    (dependencyToEdge showDependenciesOnCanvas databaseType)
    dependencies targetDepIndexes.

(** The argument of [setEdges] in the projection effect. *)
Definition projectEdges (db : ChartDB DatabaseType) (showDependenciesOnCanvas : bool)
  : list Edge.t :=
  relationshipsToEdges (relationships db)
    ++ dependenciesToEdges showDependenciesOnCanvas (databaseType db) (dependencies db).

(** *** Selection synchronisation *)




Definition highlightEdge (allSelectedEdges : list string) (edge : Edge.t) : Edge.t :=
  let selected := includes allSelectedEdges (Edge.id edge) in
  match Edge.payload edge with
  | Edge.DependencyData dep _ =>
      {| Edge.id := Edge.id edge; Edge.source := Edge.source edge;
         Edge.target := Edge.target edge;
         Edge.sourceHandle := Edge.sourceHandle edge;
         Edge.targetHandle := Edge.targetHandle edge;
         Edge.payload := Edge.DependencyData dep (Some selected);
         Edge.hidden := Edge.hidden edge; Edge.selected := Edge.selected edge;
         Edge.animated := Some selected;
         Edge.zIndex := Some (if selected then 1 else 0)%Z |}
  | Edge.RelationshipData rel _ =>
      {| Edge.id := Edge.id edge; Edge.source := Edge.source edge;
         Edge.target := Edge.target edge;
         Edge.sourceHandle := Edge.sourceHandle edge;
         Edge.targetHandle := Edge.targetHandle edge;
         Edge.payload := Edge.RelationshipData rel (Some selected);
         Edge.hidden := Edge.hidden edge; Edge.selected := Edge.selected edge;
         Edge.animated := Some selected;
         Edge.zIndex := Some (if selected then 1 else 0)%Z |}
  end.

(** The highlight effect: [setEdges(edges => edges.map(...))]. *)
Definition highlightEdges (rf : ReactFlow)
    (selectedTableIds selectedRelationshipIds : list string)
    (edges : list Edge.t) : list Edge.t :=
  let tablesSelectedEdges :=
    map Edge.id
      (List.filter
         (fun edge => includes selectedTableIds (Edge.source edge)
                      || includes selectedTableIds (Edge.target edge))
         (getEdges rf)) in
  let allSelectedEdges := tablesSelectedEdges ++ selectedRelationshipIds in
  map (highlightEdge allSelectedEdges) edges.


(** *** Domain-driven re-projection of the nodes *)

Definition validPosition (p : option XYPosition) : bool :=
  match p with
  | Some q => validCoordinate (x q) && validCoordinate (y q)
  | None => false
  end.

Definition projectTable (overlapGraph : Graph) (highlightOverlappingTables : bool)
    (filteredSchemas : option (list string)) (currentNodes : list Node.t)
    (table : DBTable.t) : Node.t :=
  let isOverlapping :=
    (0 <? length (default [] (graph overlapGraph !! DBTable.id table)))%nat in
  let node := tableToTableNode table filteredSchemas in
  let existingNode :=
    List.find (fun n => String.eqb (Node.id n) (DBTable.id table)) currentNodes in
  let node :=
    match existingNode with
    | Some existingNode =>
        let node :=
          if validPosition (Node.position existingNode)
          then Node.set_position (Node.position existingNode) node else node in
        let node :=
          if Js.truthy (Node.dragging existingNode)
             || Js.truthy (Node.resizing existingNode)
          then Node.set_measured (Node.measured existingNode) node else node in
        let node := Node.set_selected (Node.selected existingNode) node in
        let node :=
          if Js.truthy (Node.dragging existingNode)
          then Node.set_dragging (Some true) node else node in
        let node :=
          if Js.truthy (Node.resizing existingNode)
          then Node.set_resizing (Some true) node else node in
        node
    | None => node
    end in
  Node.set_payload
    (Node.TableData table isOverlapping (Some highlightOverlappingTables)) node.

(** The updater handed to [setNodes] by the re-projection effect. *)
Definition projectNodes (db : ChartDB DatabaseType) (overlapGraph : Graph)
    (highlightOverlappingTables : bool) (currentNodes : list Node.t) : list Node.t :=
  map (projectTable overlapGraph highlightOverlappingTables (filteredSchemas db)
         currentNodes) (tables db)
    ++ map areaToAreaNode (areas db).

(** *** The connect gesture *)

(** [handle?.split('_')?.pop() ?? ''] *)
Definition handleFieldId (handle : option string) : string :=
  default "" (handle ≫= fun h => Js.pop (Js.split "_" h)).

(** [params.sourceHandle?.startsWith?.(prefix)], as a condition. *)
Definition handleStartsWith (handle : option string) (prefix : string) : bool :=
  match handle with
  | Some h => Js.startsWith h prefix
  | None => false
  end.

Definition incompatibleToast : ToastProps :=
  {| toast_title := "Field types are not compatible";
     toast_variant := "destructive";
     toast_description :=
       "Relationships can only be created between compatible field types" |}.

Definition onConnectHandler (db : ChartDB DatabaseType) (params : Connection)
  : list Call :=
  if handleStartsWith (conn_sourceHandle params) TOP_SOURCE_HANDLE_ID_PREFIX
     || handleStartsWith (conn_sourceHandle params) BOTTOM_SOURCE_HANDLE_ID_PREFIX
  then
    let tableId := conn_target params in
    let dependentTableId := conn_source params in
    [createDependency tableId dependentTableId]
  else
    let sourceTableId := conn_source params in
    let targetTableId := conn_target params in
    let sourceFieldId := handleFieldId (conn_sourceHandle params) in
    let targetFieldId := handleFieldId (conn_targetHandle params) in
    match getField db sourceTableId sourceFieldId,
          getField db targetTableId targetFieldId with
    | Some sourceField, Some targetField =>
        if negb (areFieldTypesCompatible (DBField.type sourceField)
                   (DBField.type targetField) (databaseType db))
        then [toast incompatibleToast]
        else [createRelationship
                {| nr_sourceTableId := sourceTableId;
                   nr_targetTableId := targetTableId;
                   nr_sourceFieldId := sourceFieldId;
                   nr_targetFieldId := targetFieldId |}]
    | _, _ => []
    end.

(** *** Edge changes *)

Definition edgeChangeId (c : EdgeChange.t) : string :=
  match c with
  | EdgeChange.select i _ | EdgeChange.remove i | EdgeChange.replace i _ => i
  | EdgeChange.add item => Edge.id item
  end.

Definition onEdgesChangeHandler (db : ChartDB DatabaseType) (rf : ReactFlow)
    (changes : list EdgeChange.t) : list Call :=
  let changesToApply :=
    if readonly db
    then List.filter (fun change => negb (EdgeChange.is_remove change)) changes
    else changes in
  let removeChanges := List.filter EdgeChange.is_remove changesToApply in
  let edgesToRemove := omap (fun change => getEdge rf (edgeChangeId change)) removeChanges in
  let relationshipsToRemove :=
    omap (fun edge => match Edge.payload edge with
                      | Edge.RelationshipData rel _ => Some (DBRelationship.id rel)
                      | _ => None
                      end) edgesToRemove in
  let dependenciesToRemove :=
    omap (fun edge => match Edge.payload edge with
                      | Edge.DependencyData dep _ => Some (DBDependency.id dep)
                      | _ => None
                      end) edgesToRemove in
  (if (0 <? length relationshipsToRemove)%nat
   then [removeRelationships relationshipsToRemove] else [])
    ++ (if (0 <? length dependenciesToRemove)%nat
        then [removeDependencies dependenciesToRemove] else [])
    ++ [onEdgesChange changesToApply].

(** *** Node changes *)

(** The first step of the handler: a position change gets numeric
    coordinates and the node's [measured]. *)
Definition sanitizeCoordinate (v : Js.value) (prior : option Js.value) : Js.value :=
  if validCoordinate v then v else Js.nullish prior (Js.Num Js.zero).

Definition sanitizeChange (rf : ReactFlow) (change : NodeChange.t) : NodeChange.t :=
  match change with
  | NodeChange.position id (Some position) dragging _ =>
      let node := getNode rf id in
      let x' := sanitizeCoordinate (x position)
                  (x <$> (node ≫= Node.position)) in
      let y' := sanitizeCoordinate (y position)
                  (y <$> (node ≫= Node.position)) in
      NodeChange.position id (Some {| x := x'; y := y' |}) dragging
        (node ≫= Node.measured)
  | _ => change
  end.

Record RelevantChanges : Type := mkRelevant {
  positionChanges : list NodeChange.t;
  removeChanges : list NodeChange.t;
  sizeChanges : list NodeChange.t;
}.

Definition findRelevantNodesChanges (rf : ReactFlow) (changes : list NodeChange.t)
    (type : Node.kind) : RelevantChanges :=
  let relevantChanges :=
    List.filter
      (fun change =>
         if NodeChange.is_position change || NodeChange.is_dimensions change
            || NodeChange.is_remove change
         then match getNode rf (NodeChange.id change) with
              | None => false
              | Some node => bool_decide (Node.type node = type)
              end
         else false)
      changes in
  {| positionChanges :=
       List.filter
         (fun change => match change with
                        | NodeChange.position _ _ dragging _ => negb (Js.truthy dragging)
                        | _ => false
                        end) relevantChanges;
     removeChanges := List.filter NodeChange.is_remove relevantChanges;
     sizeChanges :=
       List.filter
         (fun change => match change with
                        | NodeChange.dimensions _ _ resizing => Js.truthy resizing
                        | _ => false
                        end) relevantChanges |}.

(** The [updates] map built inside the [updateTablesState] updater. *)
Definition positionUpdates (positionChanges : list NodeChange.t)
  : gmap string (Js.value * Js.value) :=
  foldl
    (fun updates change =>
       match change with
       | NodeChange.position id (Some position) _ _ =>
           <[id := (Js.Math_round (x position), Js.Math_round (y position))]> updates
       | _ => updates
       end)
    ∅ positionChanges.

(** [{ ...table, ...updates.get(table.id) }] *)
Definition patchTable (table : DBTable.t) (xy : Js.value * Js.value) : DBTable.t :=
  {| DBTable.id := DBTable.id table;
     DBTable.x := xy.1;
     DBTable.y := xy.2;
     DBTable.width := DBTable.width table;
     DBTable.schema := DBTable.schema table;
     DBTable.fields := DBTable.fields table |}.

(** The function passed to [updateTablesState]. *)
Definition tablesUpdater (positionChanges removeChanges : list NodeChange.t)
    (currentTables : list DBTable.t) : list DBTable.t :=
  let updates := positionUpdates positionChanges in
  List.filter
    (fun table =>
       negb (existsb (fun change => String.eqb (NodeChange.id change) (DBTable.id table))
               removeChanges))
    (map (fun table => match updates !! DBTable.id table with
                       | Some xy => patchTable table xy
                       | None => table
                       end) currentTables).

Definition nonEmpty {A} (l : list A) : bool := (0 <? length l)%nat.

(** The table half of the handler. *)
Definition handleTableChanges (rf : ReactFlow) (changesToApply : list NodeChange.t)
  : list Call :=
  let rel := findRelevantNodesChanges rf changesToApply Node.table in
  if nonEmpty (positionChanges rel) || nonEmpty (removeChanges rel)
     || nonEmpty (sizeChanges rel)
  then
    let isDragging :=
      existsb (fun change => match change with
                             | NodeChange.position _ _ dragging _ => Js.truthy dragging
                             | _ => false
                             end) (positionChanges rel) in
    if negb isDragging
    then [updateTablesState (tablesUpdater (positionChanges rel) (removeChanges rel));
          updateOverlappingGraphOnChangesDebounced (positionChanges rel) (sizeChanges rel)]
    else []
  else [].

(** [updateData] of one area change, with the keys it has. *)
Definition areaUpdateData (change : NodeChange.t) : Area.partial :=
  match change with
  | NodeChange.position _ position _ _ =>
      {| Area.p_x := Some (default Js.Undefined (x <$> position));
         Area.p_y := Some (default Js.Undefined (y <$> position));
         Area.p_width := None; Area.p_height := None |}
  | NodeChange.dimensions _ dims _ =>
      {| Area.p_x := None; Area.p_y := None;
         Area.p_width := Some (default Js.Undefined (dims ≫= width));
         Area.p_height := Some (default Js.Undefined (dims ≫= height)) |}
  | _ => {| Area.p_x := None; Area.p_y := None;
            Area.p_width := None; Area.p_height := None |}
  end.

(** [Object.keys(updateData).length] *)
Definition keysCount (d : Area.partial) : nat :=
  length (omap id [Area.p_x d; Area.p_y d; Area.p_width d; Area.p_height d]).

(** The area half of the handler. *)
Definition handleAreaChanges (rf : ReactFlow) (changesToApply : list NodeChange.t)
  : list Call :=
  let rel := findRelevantNodesChanges rf changesToApply Node.area in
  if nonEmpty (positionChanges rel) || nonEmpty (removeChanges rel)
     || nonEmpty (sizeChanges rel)
  then
    flat_map
      (fun change =>
         let updateData := areaUpdateData change in
         if (0 <? keysCount updateData)%nat
         then [updateArea (NodeChange.id change) updateData] else [])
      (positionChanges rel ++ sizeChanges rel)
    ++ map (fun change => removeArea (NodeChange.id change)) (removeChanges rel)
  else [].

(** [changesToApply] of the handler: sanitised, and without the remove
    changes when the diagram is read-only. *)
Definition changesToApply (db : ChartDB DatabaseType) (rf : ReactFlow)
    (changes : list NodeChange.t) : list NodeChange.t :=
  let changesToApply := map (sanitizeChange rf) changes in
  if readonly db
  then List.filter (fun change => negb (NodeChange.is_remove change)) changesToApply
  else changesToApply.

Definition onNodesChangeHandler (db : ChartDB DatabaseType) (rf : ReactFlow)
    (changes : list NodeChange.t) : list Call :=
  let changesToApply := changesToApply db rf changes in
  handleTableChanges rf changesToApply
    ++ handleAreaChanges rf changesToApply
    ++ [onNodesChange changesToApply].

(** *** The overlap graph: imports *)

Variable findTableOverlapping : Node.t -> list Node.t -> Graph -> Graph.
Variable findOverlappingTables : list DBTable.t -> Graph.
Variable removeVertex : Graph -> string -> Graph.
Variable calcTableHeight : nat -> Js.number.

(** [nodes.filter((node) => !node.hidden && node.type === 'table')] *)
Definition visibleTableNodes (nodes : list Node.t) : list Node.t :=
  List.filter
    (fun node => negb (Js.truthy (Node.hidden node))
                 && bool_decide (Node.type node = Node.table)) nodes.

(** One turn of the two loops of [updateOverlappingGraphOnChanges]. *)
Definition overlapStep (rf : ReactFlow) (nodes : list Node.t) (g : Graph)
    (change : NodeChange.t) : Graph :=
  match getNode rf (NodeChange.id change) with
  | None => g
  | Some node =>
      if bool_decide (Node.type node = Node.table)
      then findTableOverlapping node (visibleTableNodes nodes) g
      else g
  end.

Definition updateOverlappingGraphOnChanges (rf : ReactFlow) (nodes : list Node.t)
    (overlapGraph : Graph) (positionChanges sizeChanges : list NodeChange.t)
  : list StateWrite :=
  if nonEmpty positionChanges || nonEmpty sizeChanges
  then
    let newOverlappingGraph := foldl (overlapStep rf nodes) overlapGraph positionChanges in
    let newOverlappingGraph := foldl (overlapStep rf nodes) newOverlappingGraph sizeChanges in
    [setOverlapGraph newOverlappingGraph]
  else [].

(** The debounced calls of a handler run, once their timers fire, against
    the state of that moment. *)
Definition fireOverlapTriggers (rf : ReactFlow) (nodes : list Node.t)
    (overlapGraph : Graph) (calls : list Call) : list StateWrite :=
  flat_map
    (fun c => match c with
              | updateOverlappingGraphOnChangesDebounced pcs scs =>
                  updateOverlappingGraphOnChanges rf nodes overlapGraph pcs scs
              | _ => []
              end) calls.

(** [eventConsumer] *)
Definition eventConsumer (rf : ReactFlow) (nodes : list Node.t) (overlapGraph : Graph)
    (filteredSchemas : option (list string)) (event : ChartDBEvent) : list StateWrite :=
  match event with
  | add_tables tables =>
      let newNodes :=
        List.filter (fun node => bool_decide (Node.type node = Node.table))
          (omap (fun table => getNode rf (DBTable.id table))
             (List.filter
                (fun table =>
                   negb (Js.truthy (getNode rf (DBTable.id table) ≫= Node.dragging)))
                tables)) in
      if nonEmpty newNodes
      then [setOverlapGraph
              (foldl (fun graph node =>
                        findTableOverlapping node (visibleTableNodes nodes) graph)
                 overlapGraph newNodes)]
      else []
  | remove_tables tableIds => [setOverlapGraph (foldl removeVertex overlapGraph tableIds)]
  | add_field tableId fields | remove_field tableId fields =>
      match getNode rf tableId with
      | Some node =>
          if negb (Js.truthy (Node.dragging node))
          then
            let measured :=
              {| width := Node.measured node ≫= width;
                 height := Some (Js.Num (calcTableHeight (length fields))) |} in
            [setOverlapGraph
               (findTableOverlapping (Node.set_measured (Some measured) node)
                  (visibleTableNodes nodes) overlapGraph);
             setNodesDataMeasured tableId measured]
          else []
      | None => []
      end
  | update_table id tableWidth =>
      if truthyNumber tableWidth
      then match getNode rf id with
           | Some node =>
               if negb (Js.truthy (Node.dragging node))
               then
                 let measured :=
                   {| width := Js.Num <$> tableWidth;
                      height := Node.measured node ≫= height |} in
                 [setOverlapGraph
                    (findTableOverlapping (Node.set_measured (Some measured) node)
                       (visibleTableNodes nodes) overlapGraph)]
               else []
           | None => []
           end
      else []
  | load_diagram diagramTables =>
      [setOverlapGraph
         (findOverlappingTables
            (List.filter
               (fun table => shouldShowTablesBySchemaFilter table filteredSchemas)
               (default [] diagramTables)))]
  | other_action _ => []
  end.

(** [hasOverlappingTables] *)
Definition hasOverlappingTables (overlapGraph : Graph) : bool :=
  existsb (fun entry => nonEmpty entry.2) (map_to_list (graph overlapGraph)).

(** [nodeColor] of the minimap. *)
Definition nodeColor (node : Node.t) : string :=
  match y <$> Node.position node with
  | Some yPos => if validCoordinate yPos then "#888" else "#ff0000"
  | None => "#ff0000"
  end.

(** ** Properties *)

(** *** Coordinates at the read boundaries *)

Lemma validCoordinate_zero : validCoordinate (Js.Num Js.zero) = true.
Proof. reflexivity. Qed.

Lemma validCoordinate_spec v :
  validCoordinate v = true <-> exists n, v = Js.Num n /\ n <> S754_nan.
Proof.
  unfold validCoordinate. split.
  - destruct v as [| |n]; simpl; try discriminate.
    destruct n; simpl; try discriminate; intros _; eexists; split; eauto; discriminate.
  - intros (n & -> & Hn). destruct n; simpl; congruence.
Qed.

Lemma sanitizeCoordinate_valid v prior :
  (forall n, prior = Some (Js.Num n) -> n <> S754_nan) ->
  validCoordinate (sanitizeCoordinate v prior) = true.
Proof.
  intros Hprior. unfold sanitizeCoordinate.
  destruct (validCoordinate v) eqn:Hv; [exact Hv|].
  destruct prior as [[| |n]|]; simpl; try reflexivity.
  apply validCoordinate_spec. exists n. split; [reflexivity|]. now apply Hprior.
Qed.

Lemma sanitizeCoordinate_prior v n :
  validCoordinate v = false -> sanitizeCoordinate v (Some (Js.Num n)) = Js.Num n.
Proof. intros Hv. unfold sanitizeCoordinate. now rewrite Hv. Qed.

Lemma sanitizeCoordinate_zero v prior :
  validCoordinate v = false -> (forall n, prior <> Some (Js.Num n)) ->
  sanitizeCoordinate v prior = Js.Num Js.zero.
Proof.
  intros Hv Hprior. unfold sanitizeCoordinate. rewrite Hv.
  destruct prior as [[| |n]|]; simpl; try reflexivity. now destruct (Hprior n).
Qed.

(** C1 (as amended). [tableToTableNode] keeps a table coordinate that is a
    number other than NaN, an infinite one included, and projects a
    coordinate that is NaN or not a number ([undefined], [null]) to 0; the
    projected coordinates are always numbers other than NaN. In a position
    change the handler keeps a coordinate that is a number other than NaN,
    an infinite one included; one that is NaN or not a number is replaced
    by the coordinate of the node in the store when that is a number other
    than NaN, and by 0 when the store has no node of that id or the node
    has no number there; in both cases the result is a number other than
    NaN. *)
Theorem C1_nan_coordinates_replaced :
  (forall (table : DBTable.t) (filteredSchemas : option (list string)),
      exists pos,
        Node.position (tableToTableNode table filteredSchemas) = Some pos
        /\ (validCoordinate (DBTable.x table) = true -> x pos = DBTable.x table)
        /\ (validCoordinate (DBTable.y table) = true -> y pos = DBTable.y table)
        /\ (forall s, DBTable.x table = Js.Num (S754_infinity s) ->
                      x pos = Js.Num (S754_infinity s))
        /\ (forall s, DBTable.y table = Js.Num (S754_infinity s) ->
                      y pos = Js.Num (S754_infinity s))
        /\ (validCoordinate (DBTable.x table) = false -> x pos = Js.Num Js.zero)
        /\ (validCoordinate (DBTable.y table) = false -> y pos = Js.Num Js.zero)
        /\ validCoordinate (x pos) = true /\ validCoordinate (y pos) = true)
  /\ (forall (rf : ReactFlow) (id : string) (p : XYPosition)
             (dragging : option bool) (m : option Dimensions),
        let priorX := x <$> (getNode rf id ≫= Node.position) in
        let priorY := y <$> (getNode rf id ≫= Node.position) in
        exists pos,
          sanitizeChange rf (NodeChange.position id (Some p) dragging m)
          = NodeChange.position id (Some pos) dragging (getNode rf id ≫= Node.measured)
          /\ (validCoordinate (x p) = true -> x pos = x p)
          /\ (validCoordinate (y p) = true -> y pos = y p)
          /\ (forall s, x p = Js.Num (S754_infinity s) -> x pos = Js.Num (S754_infinity s))
          /\ (forall s, y p = Js.Num (S754_infinity s) -> y pos = Js.Num (S754_infinity s))
          /\ (validCoordinate (x p) = false ->
              (forall n, priorX = Some (Js.Num n) -> n <> S754_nan ->
                         x pos = Js.Num n /\ validCoordinate (x pos) = true)
              /\ ((forall n, priorX <> Some (Js.Num n)) ->
                  x pos = Js.Num Js.zero /\ validCoordinate (x pos) = true))
          /\ (validCoordinate (y p) = false ->
              (forall n, priorY = Some (Js.Num n) -> n <> S754_nan ->
                         y pos = Js.Num n /\ validCoordinate (y pos) = true)
              /\ ((forall n, priorY <> Some (Js.Num n)) ->
                  y pos = Js.Num Js.zero /\ validCoordinate (y pos) = true))).
Proof.
  assert (Hkeep : forall v prior, validCoordinate v = true -> sanitizeCoordinate v prior = v).
  { intros v prior Hv. unfold sanitizeCoordinate. now rewrite Hv. }
  assert (Hprior : forall v n, validCoordinate v = false -> n <> S754_nan ->
            sanitizeCoordinate v (Some (Js.Num n)) = Js.Num n
            /\ validCoordinate (sanitizeCoordinate v (Some (Js.Num n))) = true).
  { intros v n Hv Hn. rewrite (sanitizeCoordinate_prior v n Hv). split; [reflexivity|].
    apply validCoordinate_spec. eauto. }
  assert (Hzero : forall v prior, validCoordinate v = false ->
            (forall n, prior <> Some (Js.Num n)) ->
            sanitizeCoordinate v prior = Js.Num Js.zero
            /\ validCoordinate (sanitizeCoordinate v prior) = true).
  { intros v prior Hv Hn. rewrite (sanitizeCoordinate_zero v prior Hv Hn).
    split; reflexivity. }
  split.
  - intros table fs. eexists. split; [reflexivity|]. simpl.
    repeat split.
    + intros ->. reflexivity.
    + intros ->. reflexivity.
    + intros s ->. reflexivity.
    + intros s ->. reflexivity.
    + intros ->. reflexivity.
    + intros ->. reflexivity.
    + destruct (validCoordinate (DBTable.x table)) eqn:E; [exact E | reflexivity].
    + destruct (validCoordinate (DBTable.y table)) eqn:E; [exact E | reflexivity].
  - intros rf id p dragging m priorX priorY. eexists. split; [reflexivity|].
    simpl. fold priorX priorY.
    split; [now apply Hkeep|]. split; [now apply Hkeep|].
    split; [intros s Hs; rewrite Hs; reflexivity|].
    split; [intros s Hs; rewrite Hs; reflexivity|].
    split; intros Hv; (split; [intros n Hn Hnan; rewrite Hn; now apply Hprior
                              | intros Hn; now apply Hzero]).
Qed.

Lemma initialNodes_projection initialTables filteredSchemas :
  initialNodes initialTables filteredSchemas
  = map (fun table => tableToTableNode table filteredSchemas) initialTables.
Proof. reflexivity. Qed.

Lemma areaToAreaNode_position (area : Area.t) :
  Node.position (areaToAreaNode area) = Some {| x := Area.x area; y := Area.y area |}.
Proof. reflexivity. Qed.

(** *** Edge projection *)

Lemma mapCounting_elem {A B} (key : A -> string) (f : A -> option nat -> B) l m e :
  e ∈ mapCounting key f l m -> exists a i, a ∈ l /\ e = f a i.
Proof.
  revert m. induction l as [|a l IH]; intros m; simpl.
  - intros H. inversion H.
  - destruct (postIncrement (key a) m) as [i m'] eqn:E.
    intros H. apply elem_of_cons in H as [->|H].
    + exists a, i. split; [left | reflexivity].
    + destruct (IH _ H) as (a' & i' & Ha & ->). exists a', i'. split; [now right | reflexivity].
Qed.

Lemma projectEdges_elem db show e :
  e ∈ projectEdges db show ->
  (exists r i, r ∈ relationships db /\ e = relationshipToEdge r i)
  \/ (exists d i, d ∈ dependencies db
                  /\ e = dependencyToEdge show (databaseType db) d i).
Proof.
  unfold projectEdges. intros H. apply elem_of_app in H as [H|H].
  - left. now apply mapCounting_elem in H.
  - right. now apply mapCounting_elem in H.
Qed.

(** C9. In the projected edge list a dependency edge is hidden exactly
    when the show-dependencies preference is off and the dialect is not
    ClickHouse; a relationship edge gets no [hidden] flag at all. *)
Theorem C9_dependency_edges_hidden_rule (db : ChartDB DatabaseType)
    (showDependenciesOnCanvas : bool) (e : Edge.t) :
  e ∈ projectEdges db showDependenciesOnCanvas ->
  (Edge.type e = Edge.dependency_edge ->
     (Edge.hidden e = Some true
      <-> showDependenciesOnCanvas = false /\ databaseType db <> CLICKHOUSE)
     /\ (Edge.hidden e = Some false
         <-> showDependenciesOnCanvas = true \/ databaseType db = CLICKHOUSE))
  /\ (Edge.type e = Edge.relationship_edge -> Edge.hidden e = None).
Proof.
  intros He. destruct (projectEdges_elem _ _ _ He) as [(r & i & _ & ->)|(d & i & _ & ->)].
  - split; [discriminate | reflexivity].
  - split; [intros _ | discriminate]. simpl.
    destruct showDependenciesOnCanvas; simpl;
      destruct (bool_decide_reflect (databaseType db = CLICKHOUSE)) as [Hd|Hd]; simpl;
      intuition congruence.
Qed.

(** *** The connect gesture *)

(** C5. A gesture between two fields (its source handle is not one of the
    two dependency handles, which are routed to [createDependency] before
    any field is looked up) whose fields both resolve: with incompatible
    types the handler makes exactly one call, the warning toast, and no
    relationship is created; with compatible types it makes exactly one
    call, [createRelationship] with the resolved four ids. *)
Theorem C5_connect_incompatible_or_create (db : ChartDB DatabaseType)
    (params : Connection) (sourceField targetField : DBField.t) :
  let sourceFieldId := handleFieldId (conn_sourceHandle params) in
  let targetFieldId := handleFieldId (conn_targetHandle params) in
  handleStartsWith (conn_sourceHandle params) TOP_SOURCE_HANDLE_ID_PREFIX = false ->
  handleStartsWith (conn_sourceHandle params) BOTTOM_SOURCE_HANDLE_ID_PREFIX = false ->
  getField db (conn_source params) sourceFieldId = Some sourceField ->
  getField db (conn_target params) targetFieldId = Some targetField ->
  (areFieldTypesCompatible (DBField.type sourceField) (DBField.type targetField)
     (databaseType db) = false ->
   onConnectHandler db params = [toast incompatibleToast]
   /\ List.filter is_createRelationship (onConnectHandler db params) = []
   /\ length (List.filter is_toast (onConnectHandler db params)) = 1)
  /\ (areFieldTypesCompatible (DBField.type sourceField) (DBField.type targetField)
       (databaseType db) = true ->
     onConnectHandler db params
     = [createRelationship
          {| nr_sourceTableId := conn_source params;
             nr_targetTableId := conn_target params;
             nr_sourceFieldId := sourceFieldId;
             nr_targetFieldId := targetFieldId |}]
     /\ List.filter is_toast (onConnectHandler db params) = []).
Proof.
  intros sf tf Htop Hbottom Hs Ht. subst sf tf.
  unfold onConnectHandler. rewrite Htop, Hbottom, Hs, Ht. simpl.
  split; intros ->; simpl; auto.
Qed.

(** *** Read-only diagrams *)

Lemma filter_remove_after_not_remove_nodes (l : list NodeChange.t) P :
  List.filter NodeChange.is_remove
    (List.filter P (List.filter (fun c => negb (NodeChange.is_remove c)) l)) = [].
Proof.
  induction l as [|c l IH]; simpl; [reflexivity|].
  destruct (NodeChange.is_remove c) eqn:E; simpl; [exact IH|].
  destruct (P c); simpl; [rewrite E|]; exact IH.
Qed.

Lemma filter_remove_after_not_remove_edges (l : list EdgeChange.t) :
  List.filter EdgeChange.is_remove
    (List.filter (fun c => negb (EdgeChange.is_remove c)) l) = [].
Proof.
  induction l as [|c l IH]; simpl; [reflexivity|].
  destruct (EdgeChange.is_remove c) eqn:E; simpl; [|rewrite E]; exact IH.
Qed.

Lemma filter_not_remove_Forall_nodes (l : list NodeChange.t) :
  Forall (fun c => NodeChange.is_remove c = false)
    (List.filter (fun c => negb (NodeChange.is_remove c)) l).
Proof.
  apply List.Forall_forall. intros c Hc. apply filter_In in Hc as [_ Hc].
  now apply negb_true_iff.
Qed.

Lemma filter_not_remove_Forall_edges (l : list EdgeChange.t) :
  Forall (fun c => EdgeChange.is_remove c = false)
    (List.filter (fun c => negb (EdgeChange.is_remove c)) l).
Proof.
  apply List.Forall_forall. intros c Hc. apply filter_In in Hc as [_ Hc].
  now apply negb_true_iff.
Qed.

(** With no remove change captured, the updater keeps every table. *)
Lemma tablesUpdater_no_removals pcs (tables : list DBTable.t) :
  map DBTable.id (tablesUpdater pcs [] tables) = map DBTable.id tables.
Proof.
  unfold tablesUpdater. simpl.
  induction tables as [|t tables IH]; simpl; [reflexivity|].
  f_equal; [|exact IH]. now destruct (positionUpdates pcs !! DBTable.id t).
Qed.

Lemma handleAreaChanges_calls rf cta c :
  c ∈ handleAreaChanges rf cta ->
  (exists i d, c = updateArea i d)
  \/ (exists r, c = removeArea (NodeChange.id r)
                /\ r ∈ removeChanges (findRelevantNodesChanges rf cta Node.area)).
Proof.
  unfold handleAreaChanges.
  destruct (_ || _ || _); [|intros H; inversion H].
  intros H. apply elem_of_app in H as [H|H].
  - left. apply list_elem_of_In, in_flat_map in H as (ch & _ & H).
    destruct (0 <? _)%nat; simpl in H; [|contradiction].
    destruct H as [<-|[]]. eauto.
  - right. apply list_elem_of_fmap in H as (r & -> & Hr). eauto.
Qed.

(** C4. In a read-only diagram no remove change gets past the first filter
    of either handler: the edge handler calls neither [removeRelationships]
    nor [removeDependencies], the node handler never calls [removeArea],
    every updater it hands to [updateTablesState] keeps all tables, and the
    changes forwarded to the rendering surface contain no remove. *)
Theorem C4_readonly_blocks_removals (db : ChartDB DatabaseType) (rf : ReactFlow)
    (edgeChanges : list EdgeChange.t) (nodeChanges : list NodeChange.t) :
  readonly db = true ->
  (forall c, c ∈ onEdgesChangeHandler db rf edgeChanges ->
     is_removeRelationships c = false /\ is_removeDependencies c = false
     /\ forall cs, c = onEdgesChange cs ->
          Forall (fun ch => EdgeChange.is_remove ch = false) cs)
  /\ (forall c, c ∈ onNodesChangeHandler db rf nodeChanges ->
       is_removeArea c = false
       /\ (forall u tables, c = updateTablesState u ->
             map DBTable.id (u tables) = map DBTable.id tables)
       /\ forall cs, c = onNodesChange cs ->
            Forall (fun ch => NodeChange.is_remove ch = false) cs).
Proof.
  intros Hro. split.
  - intros c. unfold onEdgesChangeHandler. rewrite Hro.
    rewrite filter_remove_after_not_remove_edges. simpl.
    intros H. apply list_elem_of_singleton in H as ->.
    repeat split. intros cs [= <-]. apply filter_not_remove_Forall_edges.
  - intros c. unfold onNodesChangeHandler, changesToApply. rewrite Hro.
    set (cta := List.filter _ _).
    intros H. apply elem_of_app in H as [H|H]; [|apply elem_of_app in H as [H|H]].
    + unfold handleTableChanges, findRelevantNodesChanges in H. simpl in H.
      unfold cta in H. rewrite filter_remove_after_not_remove_nodes in H.
      destruct (_ || _ || _); [|inversion H].
      destruct (negb _); [|inversion H].
      apply elem_of_cons in H as [->|H];
        [|apply list_elem_of_singleton in H as ->].
      * repeat split; try discriminate.
        intros u tables [= <-]. apply tablesUpdater_no_removals.
      * repeat split; discriminate.
    + apply handleAreaChanges_calls in H as [(i & d & ->)|(r & -> & Hr)].
      * repeat split; discriminate.
      * exfalso. unfold findRelevantNodesChanges in Hr. simpl in Hr.
        unfold cta in Hr. rewrite filter_remove_after_not_remove_nodes in Hr.
        inversion Hr.
    + apply list_elem_of_singleton in H as ->. repeat split; try discriminate.
      intros cs [= <-]. apply filter_not_remove_Forall_nodes.
Qed.

(** *** Selection and highlight *)







(** *** Re-projection of the nodes *)

(** C6 (as amended). For a table that already has a node, the re-projected
    node takes [measured] from that node exactly while it is dragged or
    resized and has none otherwise; it takes the node's position whenever
    that position has two valid coordinates, interaction or not, and the
    domain position only when it has not; [selected] is always the node's;
    [dragging] and [resizing] are set exactly when they were set on the
    node; id, width and [hidden] come from the domain. *)
Theorem C6_reprojection_carry_over (overlapGraph : Graph)
    (highlightOverlappingTables : bool) (filteredSchemas : option (list string))
    (currentNodes : list Node.t) (table : DBTable.t) (existingNode : Node.t) :
  List.find (fun n => String.eqb (Node.id n) (DBTable.id table)) currentNodes
  = Some existingNode ->
  let node := projectTable overlapGraph highlightOverlappingTables filteredSchemas
                currentNodes table in
  let derived := tableToTableNode table filteredSchemas in
  let interacting :=
    Js.truthy (Node.dragging existingNode) || Js.truthy (Node.resizing existingNode) in
  (interacting = true -> Node.measured node = Node.measured existingNode)
  /\ (interacting = false -> Node.measured node = None)
  /\ (validPosition (Node.position existingNode) = true ->
      Node.position node = Node.position existingNode)
  /\ (validPosition (Node.position existingNode) = false ->
      Node.position node = Node.position derived)
  /\ Node.selected node = Node.selected existingNode
  /\ (Node.dragging node = Some true <-> Js.truthy (Node.dragging existingNode) = true)
  /\ (Node.resizing node = Some true <-> Js.truthy (Node.resizing existingNode) = true)
  /\ Node.id node = DBTable.id table
  /\ Node.width node = Node.width derived
  /\ Node.hidden node = Node.hidden derived.
Proof.
  intros Hfind node derived interacting. subst node derived interacting.
  unfold projectTable. rewrite Hfind.
  destruct (validPosition (Node.position existingNode));
    destruct (Js.truthy (Node.dragging existingNode));
    destruct (Js.truthy (Node.resizing existingNode)); simpl;
    repeat split; intros; try reflexivity; try discriminate.
Qed.

(** *** Handle indices *)

Lemma zeroCounters_lookup {A} (key : A -> string) (l : list A) (k : string) :
  isProtoKey k = false -> In k (map key l) -> zeroCounters key l !! k = Some 0.
Proof.
  intros Hk. unfold zeroCounters.
  assert (G : forall m : gmap string nat, (In k (map key l) \/ m !! k = Some 0) ->
              foldl (fun acc a => if isProtoKey (key a) then acc else <[key a := 0]> acc)
                m l !! k = Some 0).
  { induction l as [|a l IH]; intros m; simpl.
    - intros [[]|H]; exact H.
    - intros H. apply IH.
      destruct (decide (key a = k)) as [E|Hne].
      + right. rewrite E, Hk. apply lookup_insert_eq.
      + destruct H as [[H|H]|H]; [congruence | now left |].
        right. destruct (isProtoKey (key a)); [exact H|].
        now rewrite lookup_insert_ne. }
  intros H. apply G. now left.
Qed.

(** The counters never hold ["__proto__"] as a key. *)
Lemma zeroCounters_proto {A} (key : A -> string) (l : list A) (k : string) :
  isProtoKey k = true -> zeroCounters key l !! k = None.
Proof.
  intros Hk. unfold zeroCounters.
  assert (G : forall m : gmap string nat, m !! k = None ->
              foldl (fun acc a => if isProtoKey (key a) then acc else <[key a := 0]> acc)
                m l !! k = None).
  { induction l as [|a l IH]; intros m Hm; simpl; [exact Hm|].
    apply IH. destruct (isProtoKey (key a)) eqn:E; [exact Hm|].
    rewrite lookup_insert_ne; [exact Hm | congruence]. }
  apply G, lookup_empty.
Qed.

Lemma mapCounting_zip {A B} (key : A -> string) (f : A -> option nat -> B) l m :
  mapCounting key f l m
  = map (fun p => f p.1 p.2) (zip l (mapCounting key (fun _ i => i) l m)).
Proof.
  revert m. induction l as [|a l IH]; intros m; simpl; [reflexivity|].
  destruct (postIncrement (key a) m) as [i m']. simpl. now rewrite IH.
Qed.

Lemma postIncrement_other key k (m : gmap string nat) :
  key <> k -> (postIncrement key m).2 !! k = m !! k.
Proof.
  intros Hne. unfold postIncrement.
  destruct (isProtoKey key); [reflexivity|].
  destruct (m !! key); simpl; [|reflexivity].
  now rewrite lookup_insert_ne.
Qed.

(** Within the entries of one key the counter hands out consecutive
    numbers, starting from the value it holds. *)
Lemma mapCounting_group {A} (key : A -> string) (l : list A) (k : string) :
  isProtoKey k = false ->
  forall (n : nat) (m : gmap string nat),
    (forall a, In a l -> key a = k -> m !! k = Some n) ->
    map snd (List.filter (fun p => String.eqb (key p.1) k)
               (zip l (mapCounting key (fun _ i => i) l m)))
    = map Some (seq n (countKey key k l)).
Proof.
  intros Hproto. unfold countKey.
  induction l as [|a l IH]; intros n m Hm; simpl; [reflexivity|].
  destruct (postIncrement (key a) m) as [i m'] eqn:Hpi. simpl.
  destruct (String.eqb (key a) k) eqn:Hk; simpl.
  - apply String.eqb_eq in Hk.
    assert (Hn : m !! k = Some n) by (apply (Hm a); [now left | exact Hk]).
    unfold postIncrement in Hpi. rewrite Hk, Hproto, Hn in Hpi.
    injection Hpi as <- <-.
    f_equal. apply IH. intros _ _ _. apply lookup_insert_eq.
  - apply String.eqb_neq in Hk. apply IH. intros a' Ha' Hka'.
    replace m' with (postIncrement (key a) m).2 by now rewrite Hpi.
    rewrite postIncrement_other by exact Hk. apply (Hm a'); [now right | exact Hka'].
Qed.

(** The entries that share a key other than ["__proto__"] receive exactly
    0, 1, ..., N-1, in input order. *)
Lemma handleIndexes_dense {A} (key : A -> string) (l : list A) (k : string) :
  isProtoKey k = false ->
  map snd (List.filter (fun p => String.eqb (key p.1) k) (zip l (handleIndexes key l)))
  = map Some (seq 0 (countKey key k l)).
Proof.
  intros Hk. apply mapCounting_group; [exact Hk|]. intros a Ha E.
  apply zeroCounters_lookup; [exact Hk|]. rewrite <- E. now apply in_map.
Qed.

(** The entries whose key is ["__proto__"] all receive NaN. *)
Lemma handleIndexes_proto {A} (key : A -> string) (l : list A) (a : A) (i : option nat) :
  In (a, i) (zip l (handleIndexes key l)) -> isProtoKey (key a) = true -> i = None.
Proof.
  unfold handleIndexes. generalize (zeroCounters key l). intros m.
  revert m. induction l as [|b l IH]; intros m; simpl; [intros []|].
  destruct (postIncrement (key b) m) as [j m'] eqn:Hpi. simpl.
  intros [[= <- <-]|H] Hk; [|now apply (IH m')].
  unfold postIncrement in Hpi. rewrite Hk in Hpi. now injection Hpi as <- _.
Qed.

Lemma relationshipsToEdges_indexes rels :
  relationshipsToEdges rels
  = map (fun p => relationshipToEdge p.1 p.2) (zip rels (handleIndexes targetKey rels)).
Proof. apply mapCounting_zip. Qed.

Lemma dependenciesToEdges_indexes show dbt deps :
  dependenciesToEdges show dbt deps
  = map (fun p => dependencyToEdge show dbt p.1 p.2)
      (zip deps (handleIndexes DBDependency.tableId deps)).
Proof. apply mapCounting_zip. Qed.

Lemma filter_ext_In {A} (P Q : A -> bool) (l : list A) :
  (forall a, In a l -> P a = Q a) -> List.filter P l = List.filter Q l.
Proof.
  induction l as [|a l IH]; simpl; intros H; [reflexivity|].
  rewrite (H a) by now left. rewrite IH by (intros; apply H; now right). reflexivity.
Qed.

Lemma In_zip_fst {A B} (l : list A) (l' : list B) p : In p (zip l l') -> In p.1 l.
Proof.
  revert l'. induction l as [|a l IH]; intros [|b l']; simpl; try contradiction.
  intros [<-|H]; [now left | right; eauto].
Qed.

(** Relationships: when the concatenated key separates the target pairs
    of the list, the relationships of one pair, whose key is not
    ["__proto__"], receive 0, ..., N-1. *)
Lemma relationship_indexes_dense_when_keys_separate rels (t f : string) :
  isProtoKey (t +:+ f) = false ->
  (forall r r', In r rels -> In r' rels ->
                targetKey r = targetKey r' -> targetPair r = targetPair r') ->
  map snd (List.filter (fun p => bool_decide (targetPair p.1 = (t, f)))
             (zip rels (handleIndexes targetKey rels)))
  = map Some (seq 0 (length (List.filter
                               (fun r => bool_decide (targetPair r = (t, f))) rels))).
Proof.
  intros Hproto Hsep.
  destruct (List.filter (fun r => bool_decide (targetPair r = (t, f))) rels)
    as [|r0 rest] eqn:Hgroup.
  - simpl. erewrite filter_ext_In with (Q := fun _ => false).
    + now induction (zip rels _).
    + intros p Hp. apply In_zip_fst in Hp.
      apply bool_decide_eq_false. intros Hpair.
      assert (Hin : In p.1 (List.filter
                              (fun r => bool_decide (targetPair r = (t, f))) rels))
        by (apply filter_In; split; [exact Hp | now apply bool_decide_eq_true]).
      rewrite Hgroup in Hin. exact Hin.
  - assert (H0 : In r0 rels /\ targetPair r0 = (t, f)).
    { assert (Hin : In r0 (List.filter
                             (fun r => bool_decide (targetPair r = (t, f))) rels))
        by (rewrite Hgroup; now left).
      apply filter_In in Hin as [? Hb]. now apply bool_decide_eq_true in Hb. }
    destruct H0 as [Hr0 Hp0].
    assert (Hsame : forall r, In r rels ->
              bool_decide (targetPair r = (t, f)) = String.eqb (targetKey r) (targetKey r0)).
    { intros r Hr. destruct (String.eqb_spec (targetKey r) (targetKey r0)) as [E|E].
      - apply bool_decide_eq_true. rewrite <- Hp0. now apply Hsep.
      - apply bool_decide_eq_false. intros Hp. apply E.
        unfold targetKey. unfold targetPair in Hp, Hp0. congruence. }
    rewrite <- Hgroup.
    rewrite (filter_ext_In _ (fun r => String.eqb (targetKey r) (targetKey r0)) rels)
      by exact Hsame.
    rewrite (filter_ext_In _ (fun p => String.eqb (targetKey p.1) (targetKey r0)))
      by (intros p Hp; apply Hsame; now apply In_zip_fst in Hp).
    apply handleIndexes_dense.
    unfold targetKey. unfold targetPair in Hp0. injection Hp0 as -> ->. exact Hproto.
Qed.

Lemma filter_map_comm {A B} (g : A -> B) (P : B -> bool) (l : list A) :
  List.filter P (map g l) = map g (List.filter (fun a => P (g a)) l).
Proof.
  induction l as [|a l IH]; simpl; [reflexivity|].
  destruct (P (g a)); simpl; now rewrite IH.
Qed.

(** Dependencies: the edges into one table, whose id is not
    ["__proto__"], carry the handles [TARGET_DEP_PREFIX 0 _ table], ...,
    [TARGET_DEP_PREFIX (N-1) _ table], in input order. *)
Lemma dependency_handles_dense show dbt (deps : list DBDependency.t) (k : string) :
  isProtoKey k = false ->
  map Edge.targetHandle
    (List.filter (fun e => String.eqb (Edge.target e) k)
       (dependenciesToEdges show dbt deps))
  = map (fun j : nat => TARGET_DEP_PREFIX +:+ pretty j +:+ "_" +:+ k)
      (seq 0 (countKey DBDependency.tableId k deps)).
Proof.
  intros Hproto. rewrite dependenciesToEdges_indexes, filter_map_comm. simpl.
  rewrite map_map.
  rewrite (map_ext_in _
             (fun p => TARGET_DEP_PREFIX +:+ indexText (snd p) +:+ "_" +:+ k)).
  - rewrite <- (map_map snd (fun i => TARGET_DEP_PREFIX +:+ indexText i +:+ "_" +:+ k)).
    rewrite (handleIndexes_dense DBDependency.tableId deps k Hproto), map_map.
    reflexivity.
  - intros p Hp. apply filter_In in Hp as [_ Hp]. apply String.eqb_eq in Hp.
    simpl. now rewrite Hp.
Qed.

(** *** Drag bursts and the terminal change *)

Lemma sanitizeChange_position_inv rf c0 i p d m :
  sanitizeChange rf c0 = NodeChange.position i p d m ->
  exists p0 m0, c0 = NodeChange.position i p0 d m0 /\ (p0 = None -> p = None).
Proof.
  destruct c0 as [i0 [p0|] d0 m0| | | | |]; simpl; try discriminate.
  - intros [= <- <- <- <-]. exists (Some p0), m0. split; [reflexivity | discriminate].
  - intros [= <- <- <- <-]. exists None, m0. split; reflexivity.
Qed.

Lemma sanitizeChange_remove_inv rf c0 i :
  sanitizeChange rf c0 = NodeChange.remove i -> c0 = NodeChange.remove i.
Proof. destruct c0 as [i0 [p0|] d0 m0| | | | |]; simpl; congruence. Qed.

Lemma In_changesToApply db rf changes c :
  In c (changesToApply db rf changes) ->
  exists c0, In c0 changes /\ c = sanitizeChange rf c0.
Proof.
  unfold changesToApply. intros H.
  assert (H' : In c (map (sanitizeChange rf) changes))
    by (destruct (readonly db); [now apply filter_In in H | exact H]).
  apply in_map_iff in H' as (c0 & <- & H0). eauto.
Qed.

Lemma In_positionChanges rf cta ty c :
  In c (positionChanges (findRelevantNodesChanges rf cta ty)) ->
  In c cta /\ exists i p d m, c = NodeChange.position i p d m /\ Js.truthy d = false.
Proof.
  unfold findRelevantNodesChanges. simpl. intros H.
  apply filter_In in H as [H Hd]. apply filter_In in H as [H _]. split; [exact H|].
  destruct c; try discriminate. apply negb_true_iff in Hd. eauto 6.
Qed.

Lemma In_removeChanges rf cta ty c :
  In c (removeChanges (findRelevantNodesChanges rf cta ty)) ->
  In c cta /\ exists i, c = NodeChange.remove i.
Proof.
  unfold findRelevantNodesChanges. simpl. intros H.
  apply filter_In in H as [H Hr]. apply filter_In in H as [H _]. split; [exact H|].
  destruct c; try discriminate. eauto.
Qed.

(** The guard on [isDragging] never fires: the dragging changes were
    dropped when [positionChanges] was built. *)
Lemma handleTableChanges_unfold rf cta :
  let rel := findRelevantNodesChanges rf cta Node.table in
  handleTableChanges rf cta
  = if nonEmpty (positionChanges rel) || nonEmpty (removeChanges rel)
       || nonEmpty (sizeChanges rel)
    then [updateTablesState (tablesUpdater (positionChanges rel) (removeChanges rel));
          updateOverlappingGraphOnChangesDebounced (positionChanges rel) (sizeChanges rel)]
    else [].
Proof.
  intros rel. unfold handleTableChanges. fold rel.
  destruct (_ || _ || _); [|reflexivity].
  replace (existsb _ (positionChanges rel)) with false; [reflexivity|].
  symmetry. apply not_true_iff_false. intros H.
  apply existsb_exists in H as (c & Hc & Hd).
  apply In_positionChanges in Hc as (_ & i & p & d & m & -> & Hf). congruence.
Qed.

Lemma handleAreaChanges_no_table_calls rf cta :
  domainPatches (handleAreaChanges rf cta) = []
  /\ List.filter is_overlapTrigger (handleAreaChanges rf cta) = [].
Proof.
  assert (H : forall c, c ∈ handleAreaChanges rf cta ->
                is_updateTablesState c = false /\ is_overlapTrigger c = false).
  { intros c Hc. apply handleAreaChanges_calls in Hc as [(i & d & ->)|(r & -> & _)];
      split; reflexivity. }
  induction (handleAreaChanges rf cta) as [|c l IH]; [split; reflexivity|].
  destruct (H c) as [H1 H2]; [left|].
  destruct IH as [IH1 IH2]; [intros c' Hc'; apply H; now right|].
  unfold domainPatches in *. simpl. rewrite H2.
  destruct c; try discriminate; simpl; split; assumption.
Qed.

Lemma positionUpdates_foldl_other (l : list NodeChange.t) tid :
  (forall c, In c l -> forall p d m, c <> NodeChange.position tid (Some p) d m) ->
  forall acc : gmap string (Js.value * Js.value),
    foldl (fun updates change =>
             match change with
             | NodeChange.position id (Some position) _ _ =>
                 <[id := (Js.Math_round (x position), Js.Math_round (y position))]> updates
             | _ => updates
             end) acc l !! tid = acc !! tid.
Proof.
  induction l as [|c l IH]; intros Hl acc; simpl; [reflexivity|].
  rewrite IH by (intros; apply Hl; now right).
  destruct c as [i [p|] d m| | | | |]; try reflexivity.
  apply lookup_insert_ne. intros ->. now apply (Hl _ (or_introl eq_refl) p d m).
Qed.

Lemma positionUpdates_none pcs tid :
  (forall c, In c pcs -> forall p d m, c <> NodeChange.position tid (Some p) d m) ->
  positionUpdates pcs !! tid = None.
Proof.
  intros H. unfold positionUpdates. rewrite positionUpdates_foldl_other by exact H.
  apply lookup_empty.
Qed.

Lemma positionUpdates_last l1 l2 id p d m :
  (forall c, In c l2 -> forall p' d' m', c <> NodeChange.position id (Some p') d' m') ->
  positionUpdates (l1 ++ NodeChange.position id (Some p) d m :: l2) !! id
  = Some (Js.Math_round (x p), Js.Math_round (y p)).
Proof.
  intros H. unfold positionUpdates. rewrite foldl_app. simpl.
  rewrite positionUpdates_foldl_other by exact H. apply lookup_insert_eq.
Qed.

Lemma In_tablesUpdater pcs rcs tables t :
  In t (tablesUpdater pcs rcs tables) ->
  exists t0, In t0 tables /\ DBTable.id t0 = DBTable.id t
             /\ (positionUpdates pcs !! DBTable.id t0 = None -> t = t0).
Proof.
  unfold tablesUpdater. intros H. apply filter_In in H as [H _].
  apply in_map_iff in H as (t0 & <- & H0). exists t0. split; [exact H0|].
  destruct (positionUpdates pcs !! DBTable.id t0); simpl; split; congruence.
Qed.

Lemma tablesUpdater_patched pcs rcs tables t xy :
  In t tables ->
  positionUpdates pcs !! DBTable.id t = Some xy ->
  (forall c, In c rcs -> NodeChange.id c <> DBTable.id t) ->
  In (patchTable t xy) (tablesUpdater pcs rcs tables).
Proof.
  intros Ht Hxy Hrm. unfold tablesUpdater. apply filter_In. split.
  - apply in_map_iff. exists t. rewrite Hxy. split; [reflexivity | exact Ht].
  - apply negb_true_iff, not_true_iff_false. intros H.
    apply existsb_exists in H as (c & Hc & E). apply String.eqb_eq in E.
    now apply (Hrm c Hc).
Qed.

Lemma sanitizeChange_dimensions_inv rf c0 i dims r :
  sanitizeChange rf c0 = NodeChange.dimensions i dims r ->
  c0 = NodeChange.dimensions i dims r.
Proof. destruct c0 as [i0 [p0|] d0 m0| | | | |]; simpl; congruence. Qed.

Lemma In_sizeChanges rf cta ty c :
  In c (sizeChanges (findRelevantNodesChanges rf cta ty)) ->
  In c cta /\ exists i dims r, c = NodeChange.dimensions i dims r.
Proof.
  unfold findRelevantNodesChanges. simpl. intros H.
  apply filter_In in H as [H Hr]. apply filter_In in H as [H _]. split; [exact H|].
  destruct c; try discriminate. eauto.
Qed.

Lemma nonEmpty_false {A} (l : list A) : (forall a, ~ In a l) -> nonEmpty l = false.
Proof. destruct l as [|a l]; [reflexivity|]. intros H. destruct (H a). now left. Qed.

Lemma changesToApply_app db rf l1 l2 :
  changesToApply db rf (l1 ++ l2)
  = changesToApply db rf l1 ++ changesToApply db rf l2.
Proof.
  unfold changesToApply. rewrite map_app.
  destruct (readonly db); [apply List.filter_app | reflexivity].
Qed.

Lemma positionChanges_app rf l1 l2 ty :
  positionChanges (findRelevantNodesChanges rf (l1 ++ l2) ty)
  = positionChanges (findRelevantNodesChanges rf l1 ty)
      ++ positionChanges (findRelevantNodesChanges rf l2 ty).
Proof. unfold findRelevantNodesChanges. simpl. now rewrite !List.filter_app. Qed.

(** What the handler sends to the table store and to the overlap
    trigger: both or neither, once per batch. *)
Lemma onNodesChangeHandler_table_calls db rf changes :
  let rel := findRelevantNodesChanges rf (changesToApply db rf changes) Node.table in
  let fires := nonEmpty (positionChanges rel) || nonEmpty (removeChanges rel)
               || nonEmpty (sizeChanges rel) in
  domainPatches (onNodesChangeHandler db rf changes)
  = (if fires then [tablesUpdater (positionChanges rel) (removeChanges rel)] else [])
  /\ List.filter is_overlapTrigger (onNodesChangeHandler db rf changes)
     = (if fires
        then [updateOverlappingGraphOnChangesDebounced (positionChanges rel)
                (sizeChanges rel)]
        else []).
Proof.
  intros rel fires. unfold onNodesChangeHandler.
  destruct (handleAreaChanges_no_table_calls rf (changesToApply db rf changes))
    as [HA1 HA2].
  unfold domainPatches in *. rewrite !flat_map_app, !List.filter_app, HA1, HA2.
  rewrite handleTableChanges_unfold. fold rel. fold fires.
  destruct fires; split; reflexivity.
Qed.

Lemma In_tablesUpdater_xy pcs rcs tables t xy :
  In t (tablesUpdater pcs rcs tables) ->
  positionUpdates pcs !! DBTable.id t = Some xy ->
  DBTable.x t = xy.1 /\ DBTable.y t = xy.2.
Proof.
  unfold tablesUpdater. intros H Hxy. apply filter_In in H as [H _].
  apply in_map_iff in H as (t0 & <- & _).
  destruct (positionUpdates pcs !! DBTable.id t0) as [xy'|] eqn:E; simpl in *.
  - rewrite E in Hxy. injection Hxy as <-. split; reflexivity.
  - rewrite E in Hxy. discriminate.
Qed.

(** C2 (as amended). One batch of node changes through
    [onNodesChangeHandler]. (1) If every position change of a table in the
    batch has its drag flag set, whatever updater reaches
    [updateTablesState] leaves that table as it is. (2) A batch made only
    of dragging position changes reaches neither [updateTablesState] nor
    the overlap trigger. (3) A position change of a table node with the
    flag cleared (the last such change of that table in the batch) yields
    exactly one [updateTablesState] call and exactly one overlap trigger,
    called with the non-dragging position changes and the resizing changes
    of the table nodes, the sanitised change among them. The updater sets
    [x] and [y] of every table of that id to [Math.round] of the change's
    sanitised coordinates, not to the coordinates themselves, keeps its
    other attributes, and keeps the table unless the batch removes it. *)
Theorem C2_drag_then_single_patch (db : ChartDB DatabaseType) (rf : ReactFlow)
    (changes : list NodeChange.t) :
  let calls := onNodesChangeHandler db rf changes in
  (forall tid u tables t,
      (forall id p d m, In (NodeChange.position id p d m) changes ->
                        id = tid -> Js.truthy d = true) ->
      In u (domainPatches calls) -> In t (u tables) -> DBTable.id t = tid ->
      In t tables)
  /\ (Forall (fun c => exists id p m, c = NodeChange.position id p (Some true) m) changes ->
      domainPatches calls = [] /\ List.filter is_overlapTrigger calls = [])
  /\ (forall pre post id p d m node,
        changes = pre ++ NodeChange.position id (Some p) d m :: post ->
        Js.truthy d = false ->
        getNode rf id = Some node -> Node.type node = Node.table ->
        (forall p' d' m', In (NodeChange.position id (Some p') d' m') post ->
                          Js.truthy d' = true) ->
        let finalX := sanitizeCoordinate (x p) (x <$> Node.position node) in
        let finalY := sanitizeCoordinate (y p) (y <$> Node.position node) in
        let rel := findRelevantNodesChanges rf (changesToApply db rf changes) Node.table in
        exists u,
          domainPatches calls = [u]
          /\ List.filter is_overlapTrigger calls
             = [updateOverlappingGraphOnChangesDebounced (positionChanges rel)
                  (sizeChanges rel)]
          /\ In (NodeChange.position id (Some {| x := finalX; y := finalY |}) d
                   (Node.measured node)) (positionChanges rel)
          /\ (forall tables t',
                In t' (u tables) -> DBTable.id t' = id ->
                DBTable.x t' = Js.Math_round finalX
                /\ DBTable.y t' = Js.Math_round finalY)
          /\ (forall tables t,
                In t tables -> DBTable.id t = id ->
                (readonly db = true \/ ~ In (NodeChange.remove id) changes) ->
                exists t',
                  In t' (u tables) /\ DBTable.id t' = id
                  /\ DBTable.x t' = Js.Math_round finalX
                  /\ DBTable.y t' = Js.Math_round finalY
                  /\ DBTable.width t' = DBTable.width t
                  /\ DBTable.schema t' = DBTable.schema t
                  /\ DBTable.fields t' = DBTable.fields t)).
Proof.
  intros calls. subst calls.
  destruct (onNodesChangeHandler_table_calls db rf changes) as [HP HT].
  set (rel := findRelevantNodesChanges rf (changesToApply db rf changes) Node.table) in *.
  rewrite HP, HT. clear HP HT.
  split; [|split].
  - intros tid u tables t Hdrag Hu Ht Hid.
    destruct (_ || _ || _); [|contradiction].
    destruct Hu as [<-|[]].
    apply In_tablesUpdater in Ht as (t0 & Ht0 & Hid0 & Hsame).
    rewrite Hsame; [exact Ht0|].
    apply positionUpdates_none. intros c Hc p d m ->.
    apply In_positionChanges in Hc as (Hc & i & p' & d' & m' & [= <- <- <- <-] & Hd).
    apply In_changesToApply in Hc as (c0 & Hc0 & Hs). symmetry in Hs.
    apply sanitizeChange_position_inv in Hs as (p0 & m0 & -> & _).
    rewrite (Hdrag _ _ _ _ Hc0) in Hd by congruence. discriminate.
  - intros Hall. rewrite List.Forall_forall in Hall.
    rewrite (nonEmpty_false (positionChanges rel)), (nonEmpty_false (removeChanges rel)),
      (nonEmpty_false (sizeChanges rel)); [split; reflexivity | | |].
    + intros c Hc. apply In_sizeChanges in Hc as (Hc & i & dims & r & ->).
      apply In_changesToApply in Hc as (c0 & Hc0 & Hs). symmetry in Hs.
      apply sanitizeChange_dimensions_inv in Hs as ->.
      destruct (Hall _ Hc0) as (? & ? & ? & ?). discriminate.
    + intros c Hc. apply In_removeChanges in Hc as (Hc & i & ->).
      apply In_changesToApply in Hc as (c0 & Hc0 & Hs). symmetry in Hs.
      apply sanitizeChange_remove_inv in Hs as ->.
      destruct (Hall _ Hc0) as (? & ? & ? & ?). discriminate.
    + intros c Hc. apply In_positionChanges in Hc as (Hc & i & p & d & m & -> & Hd).
      apply In_changesToApply in Hc as (c0 & Hc0 & Hs). symmetry in Hs.
      apply sanitizeChange_position_inv in Hs as (p0 & m0 & -> & _).
      destruct (Hall _ Hc0) as (? & ? & ? & [= -> -> -> ->]). discriminate.
  - intros pre post id p d m node Hch Hd Hnode Hty Hlast finalX finalY rel'.
    subst rel'. fold rel.
    set (sc := NodeChange.position id (Some {| x := finalX; y := finalY |}) d
                 (Node.measured node)).
    assert (Hpcs : positionChanges rel
                   = positionChanges (findRelevantNodesChanges rf
                                        (changesToApply db rf pre) Node.table)
                     ++ sc :: positionChanges (findRelevantNodesChanges rf
                                                 (changesToApply db rf post) Node.table)).
    { unfold rel. rewrite Hch.
      change (pre ++ NodeChange.position id (Some p) d m :: post)
        with (pre ++ [NodeChange.position id (Some p) d m] ++ post).
      rewrite !changesToApply_app, !positionChanges_app. f_equal.
      change (sc :: ?l) with ([sc] ++ l). f_equal.
      unfold changesToApply, findRelevantNodesChanges. simpl. rewrite Hnode. simpl.
      fold finalX finalY. fold sc.
      destruct (readonly db); simpl; rewrite Hnode, Hty; simpl; rewrite Hd; reflexivity. }
    assert (Hfires : nonEmpty (positionChanges rel) = true).
    { rewrite Hpcs. unfold nonEmpty. rewrite length_app. simpl.
      apply Nat.ltb_lt. lia. }
    assert (Hupd : positionUpdates (positionChanges rel) !! id
                   = Some (Js.Math_round finalX, Js.Math_round finalY)).
    { rewrite Hpcs. apply positionUpdates_last.
      intros c Hc p' d' m' ->.
      apply In_positionChanges in Hc as (Hc & i & p'' & d'' & m'' & [= <- <- <- <-] & Hd').
      apply In_changesToApply in Hc as (c0 & Hc0 & Hs). symmetry in Hs.
      apply sanitizeChange_position_inv in Hs as (p0 & m0 & -> & Hnone).
      destruct p0 as [p0|]; [|specialize (Hnone eq_refl); discriminate].
      rewrite (Hlast _ _ _ Hc0) in Hd'. discriminate. }
    rewrite Hfires. cbn [orb].
    eexists. split; [reflexivity|]. split; [reflexivity|].
    split; [rewrite Hpcs; apply in_app_iff; right; now left|].
    split.
    + intros tables t' Ht' Hid'.
      apply (In_tablesUpdater_xy _ _ _ _ (Js.Math_round finalX, Js.Math_round finalY)) in Ht';
        [exact Ht' | now rewrite Hid'].
    + intros tables t Ht Hid Hkeep.
      exists (patchTable t (Js.Math_round finalX, Js.Math_round finalY)).
      split; [|simpl; auto 10].
      apply tablesUpdater_patched; [exact Ht | now rewrite Hid |].
      intros c Hc Hcid.
      apply In_removeChanges in Hc as (Hc & i & ->). simpl in Hcid. subst i.
      destruct Hkeep as [Hro|Hnorm].
      * unfold changesToApply in Hc. rewrite Hro in Hc.
        apply filter_In in Hc as [_ Hc]. discriminate.
      * apply In_changesToApply in Hc as (c0 & Hc0 & Hs). symmetry in Hs.
        apply sanitizeChange_remove_inv in Hs as ->. rewrite Hid in Hc0. now apply Hnorm.
Qed.

(** ** Further properties of the node-change handler *)

Lemma sanitizeCoordinate_idempotent v prior :
  sanitizeCoordinate (sanitizeCoordinate v prior) prior = sanitizeCoordinate v prior.
Proof.
  unfold sanitizeCoordinate. destruct (validCoordinate v) eqn:Hv; [now rewrite Hv|].
  now destruct (validCoordinate (Js.nullish prior (Js.Num Js.zero))).
Qed.

Lemma sanitizeChange_kind rf c :
  NodeChange.id (sanitizeChange rf c) = NodeChange.id c
  /\ NodeChange.is_remove (sanitizeChange rf c) = NodeChange.is_remove c
  /\ NodeChange.is_position (sanitizeChange rf c) = NodeChange.is_position c
  /\ NodeChange.is_dimensions (sanitizeChange rf c) = NodeChange.is_dimensions c.
Proof. destruct c as [i [p|] d m| | | | |]; repeat split. Qed.

(** Sanitising a change that has been sanitised against the same store
    changes nothing more, and sanitising never alters the id or the kind
    of a change. *)
Theorem sanitizeChange_idempotent (rf : ReactFlow) (c : NodeChange.t) :
  sanitizeChange rf (sanitizeChange rf c) = sanitizeChange rf c
  /\ NodeChange.id (sanitizeChange rf c) = NodeChange.id c
  /\ NodeChange.is_remove (sanitizeChange rf c) = NodeChange.is_remove c
  /\ NodeChange.is_position (sanitizeChange rf c) = NodeChange.is_position c
  /\ NodeChange.is_dimensions (sanitizeChange rf c) = NodeChange.is_dimensions c.
Proof.
  split; [|apply sanitizeChange_kind].
  destruct c as [i [p|] d m| | | | |]; try reflexivity.
  simpl. now rewrite !sanitizeCoordinate_idempotent.
Qed.

Lemma filter_nil_iff {A} (P : A -> bool) (l : list A) :
  (forall a, In a l -> P a = false) -> List.filter P l = [].
Proof.
  induction l as [|a l IH]; simpl; intros H; [reflexivity|].
  rewrite (H a) by now left. apply IH. intros; apply H; now right.
Qed.

Lemma filter_map_sanitize rf (l : list NodeChange.t) :
  List.filter (fun c => negb (NodeChange.is_remove c)) (map (sanitizeChange rf) l)
  = map (sanitizeChange rf) (List.filter (fun c => negb (NodeChange.is_remove c)) l).
Proof.
  induction l as [|c l IH]; simpl; [reflexivity|].
  destruct (sanitizeChange_kind rf c) as (_ & -> & _).
  destruct (NodeChange.is_remove c); simpl; now rewrite IH.
Qed.

(** Read-only mode is nothing but the removal filter: on any batch the
    read-only handlers make the calls the writable handlers make on the
    batch without its remove changes. *)
Theorem readonly_handlers_drop_removes_only (db db' : ChartDB DatabaseType)
    (rf : ReactFlow) (nodeChanges : list NodeChange.t) (edgeChanges : list EdgeChange.t) :
  readonly db = true -> readonly db' = false ->
  onNodesChangeHandler db rf nodeChanges
  = onNodesChangeHandler db' rf
      (List.filter (fun c => negb (NodeChange.is_remove c)) nodeChanges)
  /\ onEdgesChangeHandler db rf edgeChanges
     = onEdgesChangeHandler db' rf
         (List.filter (fun c => negb (EdgeChange.is_remove c)) edgeChanges).
Proof.
  intros Hro Hrw. split.
  - unfold onNodesChangeHandler, changesToApply. rewrite Hro, Hrw.
    now rewrite filter_map_sanitize.
  - unfold onEdgesChangeHandler. now rewrite Hro, Hrw.
Qed.

Lemma findRelevant_nil rf cta ty :
  (forall c, In c cta ->
     getNode rf (NodeChange.id c) = None
     \/ NodeChange.is_position c || NodeChange.is_dimensions c
        || NodeChange.is_remove c = false) ->
  findRelevantNodesChanges rf cta ty = mkRelevant [] [] [].
Proof.
  intros H. unfold findRelevantNodesChanges.
  rewrite (filter_nil_iff _ cta); [reflexivity|].
  intros c Hc. destruct (H c Hc) as [-> | ->]; [|reflexivity].
  now destruct (_ || _ || _).
Qed.

(** Changes that name no node of the store, and changes of the kinds
    select, add and replace, reach no domain call: the batch is only
    forwarded to the rendering surface. *)
Theorem stale_node_changes_only_forwarded (db : ChartDB DatabaseType) (rf : ReactFlow)
    (changes : list NodeChange.t) :
  (forall c, In c changes ->
     getNode rf (NodeChange.id c) = None
     \/ NodeChange.is_position c || NodeChange.is_dimensions c
        || NodeChange.is_remove c = false) ->
  onNodesChangeHandler db rf changes = [onNodesChange (changesToApply db rf changes)].
Proof.
  intros H.
  assert (H' : forall c, In c (changesToApply db rf changes) ->
                 getNode rf (NodeChange.id c) = None
                 \/ NodeChange.is_position c || NodeChange.is_dimensions c
                    || NodeChange.is_remove c = false).
  { intros c Hc. apply In_changesToApply in Hc as (c0 & Hc0 & ->).
    destruct (sanitizeChange_kind rf c0) as (-> & -> & -> & ->). now apply H. }
  unfold onNodesChangeHandler, handleTableChanges, handleAreaChanges.
  rewrite !findRelevant_nil by exact H'. reflexivity.
Qed.

Lemma positionUpdates_nil : positionUpdates [] = ∅.
Proof. reflexivity. Qed.

Lemma tablesUpdater_frame_sublist pcs rcs (tables : list DBTable.t) :
  sublist
    (map (fun t => (DBTable.id t, DBTable.width t, DBTable.schema t, DBTable.fields t))
       (tablesUpdater pcs rcs tables))
    (map (fun t => (DBTable.id t, DBTable.width t, DBTable.schema t, DBTable.fields t))
       tables).
Proof.
  unfold tablesUpdater. induction tables as [|t tables IH]; simpl; [constructor|].
  set (t' := match positionUpdates pcs !! DBTable.id t with
             | Some xy => patchTable t xy
             | None => t
             end).
  assert (Hframe : (DBTable.id t', DBTable.width t', DBTable.schema t', DBTable.fields t')
                   = (DBTable.id t, DBTable.width t, DBTable.schema t, DBTable.fields t))
    by (unfold t'; now destruct (positionUpdates pcs !! DBTable.id t)).
  destruct (negb _); simpl.
  - rewrite Hframe. now constructor.
  - now constructor.
Qed.

(** Whatever the batch, the updater handed to [updateTablesState] creates
    no table, keeps the order of the tables, and leaves id, width, schema
    and fields of every table it keeps as they were: it can only rewrite
    [x] and [y] and drop tables. *)
Theorem tablesUpdater_only_moves_or_drops (db : ChartDB DatabaseType) (rf : ReactFlow)
    (changes : list NodeChange.t) (u : list DBTable.t -> list DBTable.t)
    (tables : list DBTable.t) :
  In u (domainPatches (onNodesChangeHandler db rf changes)) ->
  sublist
    (map (fun t => (DBTable.id t, DBTable.width t, DBTable.schema t, DBTable.fields t))
       (u tables))
    (map (fun t => (DBTable.id t, DBTable.width t, DBTable.schema t, DBTable.fields t))
       tables).
Proof.
  destruct (onNodesChangeHandler_table_calls db rf changes) as [-> _].
  destruct (_ || _ || _); [|intros []].
  intros [<-|[]]. apply tablesUpdater_frame_sublist.
Qed.

Lemma In_changesToApply_intro db rf changes c :
  In c changes -> (readonly db = true -> NodeChange.is_remove c = false) ->
  In (sanitizeChange rf c) (changesToApply db rf changes).
Proof.
  intros Hc Hro. unfold changesToApply.
  assert (H : In (sanitizeChange rf c) (map (sanitizeChange rf) changes)) by now apply in_map.
  destruct (readonly db); [|exact H].
  apply filter_In. split; [exact H|].
  destruct (sanitizeChange_kind rf c) as (_ & -> & _). now rewrite Hro.
Qed.

Lemma In_relevant_intro rf cta ty c node :
  In c cta ->
  NodeChange.is_position c || NodeChange.is_dimensions c || NodeChange.is_remove c = true ->
  getNode rf (NodeChange.id c) = Some node -> Node.type node = ty ->
  In c (List.filter
          (fun change =>
             if NodeChange.is_position change || NodeChange.is_dimensions change
                || NodeChange.is_remove change
             then match getNode rf (NodeChange.id change) with
                  | None => false
                  | Some node => bool_decide (Node.type node = ty)
                  end
             else false) cta).
Proof.
  intros Hc Hk Hn Hty. apply filter_In. split; [exact Hc|].
  rewrite Hk, Hn. now apply bool_decide_eq_true.
Qed.

(** In a writable diagram a remove change of a table node makes the single
    updater drop that table from whatever list it is applied to, and a
    remove change of an area node calls [removeArea] with its id. *)
Theorem removal_reaches_the_store (db : ChartDB DatabaseType) (rf : ReactFlow)
    (changes : list NodeChange.t) (id : string) (node : Node.t) :
  readonly db = false ->
  In (NodeChange.remove id) changes ->
  getNode rf id = Some node ->
  (Node.type node = Node.table ->
   exists u, domainPatches (onNodesChangeHandler db rf changes) = [u]
             /\ forall tables t, In t (u tables) -> DBTable.id t <> id)
  /\ (Node.type node = Node.area ->
      In (removeArea id) (onNodesChangeHandler db rf changes)).
Proof.
  intros Hrw Hin Hnode.
  assert (Hcta : In (NodeChange.remove id) (changesToApply db rf changes)).
  { apply (In_changesToApply_intro db rf changes (NodeChange.remove id) Hin).
    rewrite Hrw. discriminate. }
  assert (Hrel : forall ty, Node.type node = ty ->
            In (NodeChange.remove id)
               (removeChanges (findRelevantNodesChanges rf (changesToApply db rf changes) ty))).
  { intros ty Hty. unfold findRelevantNodesChanges. simpl.
    apply filter_In. split; [|reflexivity].
    now apply (In_relevant_intro rf _ ty _ node). }
  split; intros Hty.
  - destruct (onNodesChangeHandler_table_calls db rf changes) as [-> _].
    specialize (Hrel _ Hty).
    set (rel := findRelevantNodesChanges rf (changesToApply db rf changes) Node.table) in *.
    assert (Hne : nonEmpty (removeChanges rel) = true)
      by (destruct (removeChanges rel); [destruct Hrel | reflexivity]).
    rewrite Hne, orb_true_r. cbn [orb].
    eexists. split; [reflexivity|].
    intros tables t Ht Hid. unfold tablesUpdater in Ht.
    apply filter_In in Ht as [_ Ht]. apply negb_true_iff in Ht.
    apply not_true_iff_false in Ht. apply Ht.
    apply existsb_exists. exists (NodeChange.remove id). split; [exact Hrel|].
    simpl. rewrite Hid. apply String.eqb_refl.
  - unfold onNodesChangeHandler. apply in_app_iff. right. apply in_app_iff. left.
    specialize (Hrel _ Hty). unfold handleAreaChanges.
    set (rel := findRelevantNodesChanges rf (changesToApply db rf changes) Node.area) in *.
    assert (Hne : nonEmpty (removeChanges rel) = true)
      by (destruct (removeChanges rel); [destruct Hrel | reflexivity]).
    rewrite Hne, orb_true_r. cbn [orb].
    apply in_app_iff. right.
    apply in_map_iff. exists (NodeChange.remove id). split; [reflexivity | exact Hrel].
Qed.

Lemma tablesUpdater_nil (tables : list DBTable.t) : tablesUpdater [] [] tables = tables.
Proof.
  unfold tablesUpdater. rewrite positionUpdates_nil.
  induction tables as [|t tables IH]; [reflexivity|].
  cbn [map List.filter existsb negb] in *. rewrite lookup_empty. now rewrite IH.
Qed.

Lemma resizing_batch_relevant rf (changes : list NodeChange.t) :
  (forall c, In c changes ->
     exists id dims node, c = NodeChange.dimensions id dims (Some true)
                          /\ getNode rf id = Some node /\ Node.type node = Node.table) ->
  map (sanitizeChange rf) changes = changes
  /\ List.filter (fun c => negb (NodeChange.is_remove c)) changes = changes
  /\ findRelevantNodesChanges rf changes Node.table = mkRelevant [] [] changes
  /\ findRelevantNodesChanges rf changes Node.area = mkRelevant [] [] [].
Proof.
  unfold findRelevantNodesChanges.
  induction changes as [|c changes IH]; intros H; [repeat split|].
  destruct IH as (IH1 & IH2 & IH3 & IH4); [intros; apply H; now right|].
  destruct (H c (or_introl eq_refl)) as (id & dims & node & -> & Hn & Hty).
  injection IH3 as IH3a IH3b IH3c. injection IH4 as IH4a IH4b IH4c.
  simpl. rewrite Hn, Hty. simpl.
  rewrite IH1, IH2, IH3a, IH3b, IH3c, IH4a, IH4b, IH4c. repeat split.
Qed.

(** Resizing is not held back the way dragging is. A batch of dimension
    changes of table nodes with [resizing] set calls [updateTablesState]
    once, with an updater that changes no table, and calls the overlap
    trigger once, with those changes. *)
Theorem resizing_batch_sends_an_empty_patch (db : ChartDB DatabaseType) (rf : ReactFlow)
    (changes : list NodeChange.t) :
  changes <> [] ->
  (forall c, In c changes ->
     exists id dims node, c = NodeChange.dimensions id dims (Some true)
                          /\ getNode rf id = Some node /\ Node.type node = Node.table) ->
  exists u,
    domainPatches (onNodesChangeHandler db rf changes) = [u]
    /\ (forall tables, u tables = tables)
    /\ List.filter is_overlapTrigger (onNodesChangeHandler db rf changes)
       = [updateOverlappingGraphOnChangesDebounced [] changes].
Proof.
  intros Hne H.
  destruct (resizing_batch_relevant rf changes H) as (H1 & H2 & H3 & _).
  destruct (onNodesChangeHandler_table_calls db rf changes) as [-> ->].
  assert (Hcta : changesToApply db rf changes = changes).
  { unfold changesToApply. rewrite H1. now destruct (readonly db). }
  rewrite Hcta, H3. simpl.
  destruct changes as [|c changes]; [now destruct Hne|]. simpl.
  eexists. split; [reflexivity|]. split; [apply tablesUpdater_nil | reflexivity].
Qed.

(** The end of a resize, a dimension change whose [resizing] flag is
    cleared, reaches neither the table store nor the areas nor the overlap
    trigger: the batch is only forwarded. *)
Theorem settled_resize_is_only_forwarded (db : ChartDB DatabaseType) (rf : ReactFlow)
    (changes : list NodeChange.t) :
  (forall c, In c changes ->
     exists id dims r, c = NodeChange.dimensions id dims r /\ Js.truthy r = false) ->
  onNodesChangeHandler db rf changes = [onNodesChange changes].
Proof.
  intros H.
  assert (Hrel : forall ty, findRelevantNodesChanges rf changes ty = mkRelevant [] [] []).
  { intros ty. unfold findRelevantNodesChanges.
    rewrite (filter_nil_iff _ (List.filter _ changes)); [f_equal|].
    - apply filter_nil_iff. intros c Hc. apply filter_In in Hc as [Hc _].
      destruct (H c Hc) as (? & ? & ? & -> & _). reflexivity.
    - apply filter_nil_iff. intros c Hc. apply filter_In in Hc as [Hc _].
      destruct (H c Hc) as (? & ? & ? & -> & Hr). exact Hr.
    - intros c Hc. apply filter_In in Hc as [Hc _].
      destruct (H c Hc) as (? & ? & ? & -> & _). reflexivity. }
  assert (Hcta : changesToApply db rf changes = changes).
  { unfold changesToApply.
    assert (Hs : map (sanitizeChange rf) changes = changes).
    { clear Hrel. induction changes as [|c changes IH]; [reflexivity|]. simpl.
      rewrite IH by (intros; apply H; now right).
      destruct (H c (or_introl eq_refl)) as (? & ? & ? & -> & _). reflexivity. }
    rewrite Hs. destruct (readonly db); [|reflexivity].
    clear Hrel Hs. induction changes as [|c changes IH]; [reflexivity|]. simpl.
    rewrite IH by (intros; apply H; now right).
    destruct (H c (or_introl eq_refl)) as (? & ? & ? & -> & _). reflexivity. }
  unfold onNodesChangeHandler, handleTableChanges, handleAreaChanges.
  rewrite Hcta, !Hrel. reflexivity.
Qed.

(** Areas are patched one change at a time and without rounding: the
    release of an area node calls [updateArea] with the sanitised
    coordinates of the change as they are. *)
Theorem area_release_forwarded_unrounded (db : ChartDB DatabaseType) (rf : ReactFlow)
    (changes : list NodeChange.t) (id : string) (p : XYPosition) (d : option bool)
    (m : option Dimensions) (node : Node.t) :
  In (NodeChange.position id (Some p) d m) changes ->
  Js.truthy d = false ->
  getNode rf id = Some node -> Node.type node = Node.area ->
  In (updateArea id
        {| Area.p_x := Some (sanitizeCoordinate (x p) (x <$> Node.position node));
           Area.p_y := Some (sanitizeCoordinate (y p) (y <$> Node.position node));
           Area.p_width := None; Area.p_height := None |})
     (onNodesChangeHandler db rf changes).
Proof.
  intros Hin Hd Hnode Hty.
  set (sc := NodeChange.position id
               (Some {| x := sanitizeCoordinate (x p) (x <$> Node.position node);
                        y := sanitizeCoordinate (y p) (y <$> Node.position node) |})
               d (Node.measured node)).
  assert (Hcta : In sc (changesToApply db rf changes)).
  { replace sc with (sanitizeChange rf (NodeChange.position id (Some p) d m))
      by (simpl; now rewrite Hnode).
    apply In_changesToApply_intro; [exact Hin | reflexivity]. }
  assert (Hpc : In sc (positionChanges
                         (findRelevantNodesChanges rf (changesToApply db rf changes)
                            Node.area))).
  { unfold findRelevantNodesChanges. simpl. apply filter_In. split.
    - now apply (In_relevant_intro rf _ Node.area sc node).
    - simpl. now rewrite Hd. }
  unfold onNodesChangeHandler. apply in_app_iff. right. apply in_app_iff. left.
  unfold handleAreaChanges.
  set (rel := findRelevantNodesChanges rf (changesToApply db rf changes) Node.area) in *.
  assert (Hne : nonEmpty (positionChanges rel) = true)
    by (destruct (positionChanges rel); [destruct Hpc | reflexivity]).
  rewrite Hne. cbn [orb]. apply in_app_iff. left.
  apply in_flat_map. exists sc. split; [apply in_app_iff; now left|].
  simpl. now left.
Qed.

(** ** Further properties of the edge handler and of the connect gesture *)

Lemma In_omap {A B} (f : A -> option B) (l : list A) (b : B) :
  In b (omap f l) <-> exists a, In a l /\ f a = Some b.
Proof.
  induction l as [|a l IH]; simpl.
  - split; [intros [] | intros (? & [] & _)].
  - destruct (f a) as [b'|] eqn:E; simpl; rewrite IH; split.
    + intros [<-|(a' & Ha' & Hf)]; [exists a; auto | exists a'; auto].
    + intros (a' & [<-|Ha'] & Hf); [left; congruence | right; eauto].
    + intros (a' & Ha' & Hf). exists a'; auto.
    + intros (a' & [<-|Ha'] & Hf); [congruence | eauto].
Qed.

(** In a writable diagram the ids handed to [removeRelationships] are
    exactly the relationship ids of the remove changes whose edge is still
    in the store, and likewise for [removeDependencies]; a remove change
    of an unknown edge contributes nothing, neither call is ever made with
    an empty list, and the batch is forwarded unchanged. *)
Theorem edge_removals_are_the_resolved_ones (db : ChartDB DatabaseType) (rf : ReactFlow)
    (changes : list EdgeChange.t) :
  readonly db = false ->
  let calls := onEdgesChangeHandler db rf changes in
  (forall i,
      (exists ids, In (removeRelationships ids) calls /\ In i ids)
      <-> exists cid e r h,
            In (EdgeChange.remove cid) changes /\ getEdge rf cid = Some e
            /\ Edge.payload e = Edge.RelationshipData r h /\ i = DBRelationship.id r)
  /\ (forall i,
        (exists ids, In (removeDependencies ids) calls /\ In i ids)
        <-> exists cid e d h,
              In (EdgeChange.remove cid) changes /\ getEdge rf cid = Some e
              /\ Edge.payload e = Edge.DependencyData d h /\ i = DBDependency.id d)
  /\ ~ In (removeRelationships []) calls
  /\ ~ In (removeDependencies []) calls
  /\ In (onEdgesChange changes) calls.
Proof.
  intros Hrw calls. subst calls. unfold onEdgesChangeHandler. rewrite Hrw.
  set (edgesToRemove := omap _ (List.filter EdgeChange.is_remove changes)).
  assert (Hedges : forall e, In e edgesToRemove
                    <-> exists cid, In (EdgeChange.remove cid) changes
                                    /\ getEdge rf cid = Some e).
  { intros e. unfold edgesToRemove. rewrite In_omap. split.
    - intros (c & Hc & He). apply filter_In in Hc as [Hc Hr].
      destruct c; try discriminate. eauto.
    - intros (cid & Hc & He). exists (EdgeChange.remove cid).
      split; [now apply filter_In | exact He]. }
  set (rels := omap _ edgesToRemove). set (deps := omap _ edgesToRemove).
  assert (Hrels : forall i, In i rels
                   <-> exists cid e r h,
                         In (EdgeChange.remove cid) changes /\ getEdge rf cid = Some e
                         /\ Edge.payload e = Edge.RelationshipData r h
                         /\ i = DBRelationship.id r).
  { intros i. unfold rels. rewrite In_omap. split.
    - intros (e & He & Hp). apply Hedges in He as (cid & Hc & Hg).
      destruct (Edge.payload e) as [r h|] eqn:E; [|discriminate].
      injection Hp as <-. eauto 10.
    - intros (cid & e & r & h & Hc & Hg & Hp & ->). exists e.
      split; [apply Hedges; eauto | now rewrite Hp]. }
  assert (Hdeps : forall i, In i deps
                   <-> exists cid e d h,
                         In (EdgeChange.remove cid) changes /\ getEdge rf cid = Some e
                         /\ Edge.payload e = Edge.DependencyData d h
                         /\ i = DBDependency.id d).
  { intros i. unfold deps. rewrite In_omap. split.
    - intros (e & He & Hp). apply Hedges in He as (cid & Hc & Hg).
      destruct (Edge.payload e) as [|d h] eqn:E; [discriminate|].
      injection Hp as <-. eauto 10.
    - intros (cid & e & d & h & Hc & Hg & Hp & ->). exists e.
      split; [apply Hedges; eauto | now rewrite Hp]. }
  clearbody rels deps. clear Hedges.
  repeat split.
  - intros (ids & Hin & Hi). apply Hrels.
    destruct rels as [|r0 rels]; destruct deps as [|d0 deps]; simpl in Hin;
      repeat (destruct Hin as [Hin|Hin]; try discriminate Hin; try contradiction);
      injection Hin as <-; exact Hi.
  - intros Hi. apply Hrels in Hi. exists rels. split; [|exact Hi].
    destruct rels as [|r0 rels]; [destruct Hi|]. now left.
  - intros (ids & Hin & Hi). apply Hdeps.
    destruct rels as [|r0 rels]; destruct deps as [|d0 deps]; simpl in Hin;
      repeat (destruct Hin as [Hin|Hin]; try discriminate Hin; try contradiction);
      injection Hin as <-; exact Hi.
  - intros Hi. apply Hdeps in Hi. exists deps. split; [|exact Hi].
    destruct deps as [|d0 deps]; [destruct Hi|].
    destruct rels; simpl; auto.
  - destruct rels as [|r0 rels]; destruct deps as [|d0 deps]; simpl;
      intros Hin; repeat (destruct Hin as [Hin|Hin]; try discriminate Hin; try contradiction).
  - destruct rels as [|r0 rels]; destruct deps as [|d0 deps]; simpl;
      intros Hin; repeat (destruct Hin as [Hin|Hin]; try discriminate Hin; try contradiction).
  - apply in_app_iff. right. apply in_app_iff. right. now left.
Qed.

(** The connect handler makes at most one call, whatever the gesture, and
    none at all when a field of a field-to-field gesture does not resolve
    in the store. *)
Theorem onConnect_one_call_at_most (db : ChartDB DatabaseType) (params : Connection) :
  (length (onConnectHandler db params) <= 1)%nat
  /\ (handleStartsWith (conn_sourceHandle params) TOP_SOURCE_HANDLE_ID_PREFIX = false ->
      handleStartsWith (conn_sourceHandle params) BOTTOM_SOURCE_HANDLE_ID_PREFIX = false ->
      getField db (conn_source params) (handleFieldId (conn_sourceHandle params)) = None
      \/ getField db (conn_target params) (handleFieldId (conn_targetHandle params)) = None ->
      onConnectHandler db params = []).
Proof.
  unfold onConnectHandler. split.
  - destruct (_ || _); [simpl; lia|].
    destruct (getField db _ _); [|simpl; lia].
    destruct (getField db _ _); [|simpl; lia].
    destruct (negb _); simpl; lia.
  - intros -> -> [H|H]; cbn [orb]; rewrite H; [reflexivity|].
    destruct (getField db (conn_source params) _); reflexivity.
Qed.

Lemma split_nonempty sep s : Js.split sep s <> [].
Proof.
  destruct s as [|c s]; simpl; [discriminate|].
  destruct (Ascii.eqb c sep); [discriminate|].
  destruct (Js.split sep s); discriminate.
Qed.

Lemma split_app_sep sep a f :
  Js.split sep (a +:+ String sep f) = Js.split sep a ++ Js.split sep f.
Proof.
  induction a as [|c a IH]; simpl.
  - now rewrite Ascii.eqb_refl.
  - rewrite IH. destruct (Ascii.eqb c sep); [reflexivity|].
    destruct (Js.split sep a) eqn:E; [now destruct (split_nonempty sep a)|reflexivity].
Qed.

Lemma split_without_sep sep f :
  ~ In sep (list_ascii_of_string f) -> Js.split sep f = [f].
Proof.
  induction f as [|c f IH]; simpl; intros H; [reflexivity|].
  destruct (Ascii.eqb_spec c sep) as [->|_]; [destruct H; now left|].
  rewrite IH; [reflexivity|]. intros Hin. apply H. now right.
Qed.

Lemma split_segments_without_sep sep s seg :
  In seg (Js.split sep s) -> ~ In sep (list_ascii_of_string seg).
Proof.
  revert seg. induction s as [|c s IH]; simpl; intros seg.
  - intros [<-|[]]. simpl. tauto.
  - destruct (Ascii.eqb_spec c sep) as [->|Hne].
    + intros [<-|H]; [simpl; tauto | now apply IH].
    + destruct (Js.split sep s) as [|h t] eqn:E; [now destruct (split_nonempty sep s)|].
      intros [<-|H].
      * simpl. intros [Hc|Hin]; [congruence|]. apply (IH h); [now left | exact Hin].
      * apply IH. now right.
Qed.

Lemma last_app_nonempty {A} (l1 l2 : list A) : l2 <> [] -> last (l1 ++ l2) = last l2.
Proof.
  intros H. destruct l2 as [|b l2]; [now destruct H|].
  clear H. revert b. induction l2 as [|c l2 IH] using rev_ind; intros b.
  - now rewrite last_snoc.
  - rewrite app_comm_cons, app_assoc. now rewrite !last_snoc.
Qed.

Lemma handleFieldId_without_underscore (a f : string) :
  ~ In "_"%char (list_ascii_of_string f) ->
  handleFieldId (Some (a +:+ "_" +:+ f)) = f.
Proof.
  intros H. unfold handleFieldId, Js.pop. simpl.
  change ("_" +:+ f) with (String "_"%char f).
  rewrite split_app_sep, last_app_nonempty by apply split_nonempty.
  now rewrite split_without_sep.
Qed.

(** The handle ids are decoded by keeping what follows the last underscore.
    A handle built as [anything _ fieldId] therefore gives the field id
    back exactly when the field id has no underscore in it. *)
Theorem handleFieldId_recovers_field_id (a f : string) :
  handleFieldId (Some (a +:+ "_" +:+ f)) = f
  <-> ~ In "_"%char (list_ascii_of_string f).
Proof.
  unfold handleFieldId, Js.pop. simpl.
  change ("_" +:+ f) with (String "_"%char f).
  rewrite split_app_sep, last_app_nonempty by apply split_nonempty.
  split.
  - intros H.
    destruct (last (Js.split "_" f)) as [seg|] eqn:E; simpl in H.
    + subst seg. apply (split_segments_without_sep "_"%char f f).
      apply list_elem_of_In. apply last_Some_elem_of. exact E.
    + apply last_None in E. now destruct (split_nonempty "_"%char f).
  - intros H. now rewrite split_without_sep.
Qed.

Lemma string_app_assoc (a b c : string) : (a +:+ b) +:+ c = a +:+ b +:+ c.
Proof.
  induction a as [|ch a IH]; [reflexivity|].
  change (String ch ((a +:+ b) +:+ c) = String ch (a +:+ b +:+ c)). now rewrite IH.
Qed.

(** Drawing again the edge that the projection shows for a relationship
    asks the store for the same relationship: the gesture made of the
    projected endpoints and handle ids resolves to the four ids of the
    relationship, provided the field ids carry no underscore. *)
Theorem reconnecting_a_projected_edge (db : ChartDB DatabaseType)
    (r : DBRelationship.t) (i : option nat) (leftStem : string)
    (sourceField targetField : DBField.t) :
  let e := relationshipToEdge r i in
  let params := mkConnection (Edge.source e) (Edge.target e)
                  (Some (Edge.sourceHandle e)) (Some (Edge.targetHandle e)) in
  LEFT_HANDLE_ID_PREFIX = leftStem +:+ "_" ->
  handleStartsWith (Some (Edge.sourceHandle e)) TOP_SOURCE_HANDLE_ID_PREFIX = false ->
  handleStartsWith (Some (Edge.sourceHandle e)) BOTTOM_SOURCE_HANDLE_ID_PREFIX = false ->
  ~ In "_"%char (list_ascii_of_string (DBRelationship.sourceFieldId r)) ->
  ~ In "_"%char (list_ascii_of_string (DBRelationship.targetFieldId r)) ->
  getField db (DBRelationship.sourceTableId r) (DBRelationship.sourceFieldId r)
  = Some sourceField ->
  getField db (DBRelationship.targetTableId r) (DBRelationship.targetFieldId r)
  = Some targetField ->
  areFieldTypesCompatible (DBField.type sourceField) (DBField.type targetField)
    (databaseType db) = true ->
  onConnectHandler db params
  = [createRelationship
       {| nr_sourceTableId := DBRelationship.sourceTableId r;
          nr_targetTableId := DBRelationship.targetTableId r;
          nr_sourceFieldId := DBRelationship.sourceFieldId r;
          nr_targetFieldId := DBRelationship.targetFieldId r |}].
Proof.
  intros e params Hleft Htop Hbottom Hsf Htf Hgs Hgt Hcompat.
  assert (Hs : handleFieldId (conn_sourceHandle params) = DBRelationship.sourceFieldId r).
  { simpl. rewrite Hleft, string_app_assoc.
    now apply handleFieldId_without_underscore. }
  assert (Ht : handleFieldId (conn_targetHandle params) = DBRelationship.targetFieldId r).
  { simpl. rewrite <- (string_app_assoc TARGET_ID_PREFIX (indexText i)).
    now apply handleFieldId_without_underscore. }
  unfold onConnectHandler.
  change (conn_sourceHandle params) with (Some (Edge.sourceHandle e)) at 1 2.
  rewrite Htop, Hbottom. cbn [orb].
  rewrite Hs, Ht. simpl. rewrite Hgs, Hgt, Hcompat. reflexivity.
Qed.

(** ** Further properties of the projections *)

Lemma projectTable_id g hl fs currentNodes table :
  Node.id (projectTable g hl fs currentNodes table) = DBTable.id table.
Proof.
  unfold projectTable.
  destruct (List.find _ currentNodes) as [e|]; [|reflexivity].
  destruct (validPosition _), (Js.truthy (Node.dragging e)), (Js.truthy (Node.resizing e));
    reflexivity.
Qed.

Lemma projectTable_payload g hl fs currentNodes table :
  Node.payload (projectTable g hl fs currentNodes table)
  = Node.TableData table
      (0 <? length (default [] (graph g !! DBTable.id table)))%nat (Some hl).
Proof. reflexivity. Qed.

(** The re-projection yields one node per table followed by one node per
    area, in the order of the store and with their ids, whatever nodes
    were on the canvas before: a node whose entity is gone is not kept. *)
Theorem projectNodes_follows_the_store (db : ChartDB DatabaseType) (overlapGraph : Graph)
    (highlightOverlappingTables : bool) (currentNodes : list Node.t) :
  map (fun n => (Node.id n, Node.type n))
    (projectNodes db overlapGraph highlightOverlappingTables currentNodes)
  = map (fun t => (DBTable.id t, Node.table)) (tables db)
      ++ map (fun a => (Area.id a, Node.area)) (areas db).
Proof.
  unfold projectNodes. rewrite map_app, !map_map. f_equal.
  apply map_ext. intros t. now rewrite projectTable_id.
Qed.

Lemma projectTable_position_valid g hl fs currentNodes table :
  validPosition (Node.position (projectTable g hl fs currentNodes table)) = true.
Proof.
  assert (Hd : validPosition (Node.position (tableToTableNode table fs)) = true).
  { simpl. apply andb_true_intro. split.
    - destruct (validCoordinate (DBTable.x table)) eqn:E; [exact E | reflexivity].
    - destruct (validCoordinate (DBTable.y table)) eqn:E; [exact E | reflexivity]. }
  unfold projectTable.
  destruct (List.find _ currentNodes) as [e|]; [|exact Hd].
  destruct (validPosition (Node.position e)) eqn:Hv;
    destruct (Js.truthy (Node.dragging e)), (Js.truthy (Node.resizing e));
    simpl; first [exact Hv | exact Hd].
Qed.

(** After a re-projection every table node has a position made of two
    numbers other than NaN, even when the node it replaces or the table
    itself had none, and so the minimap never paints a table node in the
    colour it keeps for invalid positions. *)
Theorem reprojected_table_nodes_are_placed (db : ChartDB DatabaseType)
    (overlapGraph : Graph) (highlightOverlappingTables : bool)
    (currentNodes : list Node.t) (node : Node.t) :
  In node (projectNodes db overlapGraph highlightOverlappingTables currentNodes) ->
  Node.type node = Node.table ->
  validPosition (Node.position node) = true /\ nodeColor node = "#888".
Proof.
  unfold projectNodes. intros Hin Hty. apply in_app_iff in Hin as [Hin|Hin].
  - apply in_map_iff in Hin as (t & <- & _).
    pose proof (projectTable_position_valid overlapGraph highlightOverlappingTables
                  (filteredSchemas db) currentNodes t) as Hv.
    split; [exact Hv|]. unfold nodeColor.
    destruct (Node.position _) as [q|]; [|discriminate Hv]. simpl in *.
    apply andb_true_iff in Hv as [_ Hy]. now rewrite Hy.
  - apply in_map_iff in Hin as (a & <- & _). discriminate Hty.
Qed.

Lemma hasOverlappingTables_spec (g : Graph) :
  hasOverlappingTables g = true
  <-> exists k l, graph g !! k = Some l /\ l <> [].
Proof.
  unfold hasOverlappingTables. rewrite existsb_exists. split.
  - intros ([k l] & Hin & Hne). exists k, l. split.
    + now apply elem_of_map_to_list, list_elem_of_In.
    + destruct l; [discriminate | discriminate].
  - intros (k & l & Hk & Hne). exists (k, l). split.
    + now apply list_elem_of_In, elem_of_map_to_list.
    + destruct l; [now destruct Hne | reflexivity].
Qed.

(** The toolbar warning agrees with the nodes: whenever a re-projected
    table node is flagged [isOverlapping], [hasOverlappingTables] holds
    for the same graph, and when the graph holds only empty adjacency
    lists no node is flagged. *)
Theorem overlapping_flag_implies_warning (db : ChartDB DatabaseType) (overlapGraph : Graph)
    (highlightOverlappingTables : bool) (currentNodes : list Node.t) (node : Node.t)
    (table : DBTable.t) (isOverlapping : bool) (h : option bool) :
  In node (projectNodes db overlapGraph highlightOverlappingTables currentNodes) ->
  Node.payload node = Node.TableData table isOverlapping h ->
  (isOverlapping = true -> hasOverlappingTables overlapGraph = true)
  /\ (hasOverlappingTables overlapGraph = false -> isOverlapping = false).
Proof.
  intros Hin Hp.
  assert (H : isOverlapping = true -> hasOverlappingTables overlapGraph = true).
  { intros ->. unfold projectNodes in Hin. apply in_app_iff in Hin as [Hin|Hin].
    - apply in_map_iff in Hin as (t & <- & _). rewrite projectTable_payload in Hp.
      injection Hp as <- Hov _. apply hasOverlappingTables_spec.
      destruct (graph overlapGraph !! DBTable.id t) as [l|] eqn:E; simpl in Hov.
      + exists (DBTable.id t), l. split; [exact E|]. now destruct l.
      + discriminate.
    - apply in_map_iff in Hin as (a & <- & _). discriminate Hp. }
  split; [exact H|]. intros Hno. destruct isOverlapping; [|reflexivity].
  rewrite H in Hno by reflexivity. discriminate.
Qed.

Lemma mapCounting_independent {A B C} (key : A -> string) (f : A -> option nat -> B)
    (g : B -> C) (h : A -> C) l m :
  (forall a i, g (f a i) = h a) -> map g (mapCounting key f l m) = map h l.
Proof.
  intros H. revert m. induction l as [|a l IH]; intros m; simpl; [reflexivity|].
  destruct (postIncrement (key a) m) as [i m']. simpl. now rewrite H, IH.
Qed.

(** The projected edges are the relationships followed by the
    dependencies, one edge each, in the order of the store; a relationship
    edge runs from its source table to its target table, a dependency edge
    from the dependent table to the table it depends on. Only the target
    handle depends on the counters. *)
Theorem projectEdges_follows_the_store (db : ChartDB DatabaseType)
    (showDependenciesOnCanvas : bool) :
  map (fun e => (Edge.id e, Edge.type e, Edge.source e, Edge.target e, Edge.sourceHandle e))
    (projectEdges db showDependenciesOnCanvas)
  = map (fun r => (DBRelationship.id r, Edge.relationship_edge,
                   DBRelationship.sourceTableId r, DBRelationship.targetTableId r,
                   LEFT_HANDLE_ID_PREFIX +:+ DBRelationship.sourceFieldId r))
      (relationships db)
    ++ map (fun d => (DBDependency.id d, Edge.dependency_edge,
                      DBDependency.dependentTableId d, DBDependency.tableId d,
                      TOP_SOURCE_HANDLE_ID_PREFIX +:+ DBDependency.dependentTableId d))
         (dependencies db).
Proof.
  unfold projectEdges, relationshipsToEdges, dependenciesToEdges.
  rewrite map_app. f_equal; apply mapCounting_independent; reflexivity.
Qed.

Lemma list_ascii_of_string_app (a b : string) :
  list_ascii_of_string (a +:+ b) = list_ascii_of_string a ++ list_ascii_of_string b.
Proof.
  induction a as [|c a IH]; [reflexivity|].
  change (c :: list_ascii_of_string (a +:+ b)
          = c :: (list_ascii_of_string a ++ list_ascii_of_string b)).
  now rewrite IH.
Qed.

Lemma string_app_inv_tail (a b c : string) : a +:+ c = b +:+ c -> a = b.
Proof.
  intros H. apply (f_equal list_ascii_of_string) in H.
  rewrite !list_ascii_of_string_app in H. apply app_inv_tail in H.
  apply (f_equal string_of_list_ascii) in H.
  now rewrite !string_of_list_ascii_of_string in H.
Qed.

(** The dependency edges that arrive at one table carry pairwise distinct
    target handles, unless the id of the table is ["__proto__"]: that key
    never becomes a counter, and every edge into such a table gets the
    handle of index NaN. *)
Theorem dependency_handles_are_distinct (show : bool) (dbt : DatabaseType)
    (deps : list DBDependency.t) (k : string) :
  (k <> "__proto__" ->
   List.NoDup
     (map Edge.targetHandle
        (List.filter (fun e => String.eqb (Edge.target e) k)
           (dependenciesToEdges show dbt deps))))
  /\ (forall e, In e (dependenciesToEdges show dbt deps) ->
        Edge.target e = "__proto__" ->
        Edge.targetHandle e = TARGET_DEP_PREFIX +:+ "NaN" +:+ "_" +:+ "__proto__").
Proof.
  split.
  - intros Hk. rewrite dependency_handles_dense by now apply String.eqb_neq.
    apply NoDup_ListNoDup.
    assert (Hinj : Inj (=) (=)
                     (fun j : nat => TARGET_DEP_PREFIX +:+ pretty j +:+ "_" +:+ k)).
    { intros j j' H. apply String.app_inj in H.
      apply string_app_inv_tail in H. now apply pretty_nat_inj in H. }
    apply (NoDup_fmap_2 _), NoDup_seq.
  - intros e He Ht. rewrite dependenciesToEdges_indexes in He.
    apply in_map_iff in He as ([d i] & <- & Hin). simpl in *.
    apply handleIndexes_proto in Hin; [|now rewrite Ht].
    now rewrite Hin, Ht.
Qed.

(** ** Further properties of the highlight *)

Lemma highlightEdge_idempotent all e :
  highlightEdge all (highlightEdge all e) = highlightEdge all e.
Proof. unfold highlightEdge. destruct (Edge.payload e) eqn:E; simpl; reflexivity. Qed.

(** Running the highlight effect again on its own result, with the same
    selection and the same store, changes nothing. *)
Theorem highlightEdges_idempotent (rf : ReactFlow)
    (selectedTableIds selectedRelationshipIds : list string) (edges : list Edge.t) :
  highlightEdges rf selectedTableIds selectedRelationshipIds
    (highlightEdges rf selectedTableIds selectedRelationshipIds edges)
  = highlightEdges rf selectedTableIds selectedRelationshipIds edges.
Proof.
  unfold highlightEdges. rewrite map_map. apply map_ext. intros e.
  apply highlightEdge_idempotent.
Qed.


(** ** Properties of the overlap-graph writers *)

Lemma overlapStep_skips rf nodes g (l : list NodeChange.t) :
  (forall c, In c l ->
     getNode rf (NodeChange.id c) = None
     \/ exists node, getNode rf (NodeChange.id c) = Some node
                      /\ Node.type node = Node.area) ->
  foldl (overlapStep rf nodes) g l = g.
Proof.
  induction l as [|c l IH]; intros H; simpl; [reflexivity|].
  rewrite <- (IH (fun c' Hc' => H c' (or_intror Hc'))) at 2. f_equal.
  unfold overlapStep.
  destruct (H c (or_introl eq_refl)) as [->|(node & -> & Hty)]; [reflexivity|].
  now rewrite Hty.
Qed.

(** A pending overlap update whose changes name only nodes that have left
    the store, or area nodes, recomputes nothing: it writes back the graph
    it started from; and with no change at all it writes nothing. *)
Theorem pending_overlap_update_skips_missing_nodes (rf : ReactFlow) (nodes : list Node.t)
    (overlapGraph : Graph) (positionChanges sizeChanges : list NodeChange.t) :
  (forall c, In c (positionChanges ++ sizeChanges) ->
     getNode rf (NodeChange.id c) = None
     \/ exists node, getNode rf (NodeChange.id c) = Some node
                      /\ Node.type node = Node.area) ->
  updateOverlappingGraphOnChanges rf nodes overlapGraph positionChanges sizeChanges
  = if nonEmpty (positionChanges ++ sizeChanges)
    then [setOverlapGraph overlapGraph] else [].
Proof.
  intros H. unfold updateOverlappingGraphOnChanges.
  rewrite !overlapStep_skips
    by (intros c Hc; apply H, in_app_iff; auto).
  destruct positionChanges, sizeChanges; reflexivity.
Qed.

Lemma fireOverlapTriggers_app rf nodes g l1 l2 :
  fireOverlapTriggers rf nodes g (l1 ++ l2)
  = fireOverlapTriggers rf nodes g l1 ++ fireOverlapTriggers rf nodes g l2.
Proof. apply flat_map_app. Qed.

Lemma fireOverlapTriggers_area rf nodes g rf' cta :
  fireOverlapTriggers rf nodes g (handleAreaChanges rf' cta) = [].
Proof.
  assert (H : forall c, c ∈ handleAreaChanges rf' cta -> is_overlapTrigger c = false).
  { intros c Hc. apply handleAreaChanges_calls in Hc as [(i & d & ->)|(r & -> & _)];
      reflexivity. }
  unfold fireOverlapTriggers.
  induction (handleAreaChanges rf' cta) as [|c l IH]; [reflexivity|].
  simpl. rewrite IH by (intros c' Hc'; apply H; now right).
  specialize (H c (list_elem_of_here _ _)). now destruct c.
Qed.

(** However many changes a batch holds, the overlap triggers it sets off
    write the graph at most once when they fire; a batch made of remove
    changes only does call the trigger when it removes a table, but with
    nothing to recompute, and the graph is not written. *)
Theorem batch_writes_overlap_graph_at_most_once (db : ChartDB DatabaseType)
    (rf rf' : ReactFlow) (nodes : list Node.t) (overlapGraph : Graph)
    (changes : list NodeChange.t) :
  (length (fireOverlapTriggers rf' nodes overlapGraph (onNodesChangeHandler db rf changes))
   <= 1)%nat
  /\ ((forall c, In c changes -> NodeChange.is_remove c = true) ->
      fireOverlapTriggers rf' nodes overlapGraph (onNodesChangeHandler db rf changes) = []).
Proof.
  unfold onNodesChangeHandler.
  rewrite !fireOverlapTriggers_app, fireOverlapTriggers_area, handleTableChanges_unfold.
  set (rel := findRelevantNodesChanges rf (changesToApply db rf changes) Node.table).
  change (fireOverlapTriggers rf' nodes overlapGraph
            [onNodesChange (changesToApply db rf changes)]) with (@nil StateWrite).
  rewrite !app_nil_r.
  set (fires := nonEmpty (positionChanges rel) || nonEmpty (removeChanges rel)
                || nonEmpty (sizeChanges rel)).
  assert (Hfire :
    fireOverlapTriggers rf' nodes overlapGraph
      (if fires
       then [updateTablesState (tablesUpdater (positionChanges rel) (removeChanges rel));
             updateOverlappingGraphOnChangesDebounced (positionChanges rel)
               (sizeChanges rel)]
       else [])
    = if fires
      then updateOverlappingGraphOnChanges rf' nodes overlapGraph (positionChanges rel)
             (sizeChanges rel)
      else []).
  { destruct fires; [|reflexivity].
    unfold fireOverlapTriggers. cbn [flat_map]. now rewrite app_nil_r. }
  rewrite Hfire. clear Hfire. split.
  - destruct fires; [|simpl; lia]. unfold updateOverlappingGraphOnChanges.
    destruct (_ || _); simpl; lia.
  - intros Hrm.
    assert (Hp : positionChanges rel = []).
    { destruct (positionChanges rel) as [|c l] eqn:E; [reflexivity|].
      assert (Hc : In c (positionChanges rel)) by (rewrite E; now left).
      apply In_positionChanges in Hc as (Hc & i & p & d & m & -> & _).
      apply In_changesToApply in Hc as (c0 & Hc0 & Hs). symmetry in Hs.
      apply sanitizeChange_position_inv in Hs as (p0 & m0 & -> & _).
      now specialize (Hrm _ Hc0). }
    assert (Hs : sizeChanges rel = []).
    { destruct (sizeChanges rel) as [|c l] eqn:E; [reflexivity|].
      assert (Hc : In c (sizeChanges rel)) by (rewrite E; now left).
      apply In_sizeChanges in Hc as (Hc & i & dims & r & ->).
      apply In_changesToApply in Hc as (c0 & Hc0 & Hs). symmetry in Hs.
      apply sanitizeChange_dimensions_inv in Hs as ->.
      now specialize (Hrm _ Hc0). }
    rewrite Hp, Hs. now destruct fires.
Qed.

(** One event makes the consumer write the overlap graph at most once,
    and it patches a node's measured size only together with such a
    write. *)
Theorem eventConsumer_writes_graph_at_most_once (rf : ReactFlow) (nodes : list Node.t)
    (overlapGraph : Graph) (filteredSchemas : option (list string))
    (event : ChartDBEvent) :
  let writes := eventConsumer rf nodes overlapGraph filteredSchemas event in
  (length (List.filter is_setOverlapGraph writes) <= 1)%nat
  /\ (forall tableId measured, In (setNodesDataMeasured tableId measured) writes ->
        exists g, In (setOverlapGraph g) writes).
Proof.
  intros writes. subst writes.
  destruct event as [tables|ids|tid fields|tid fields|tid w|tables|action]; simpl;
    repeat match goal with
           | |- context [if ?b then _ else _] => destruct b
           | |- context [match getNode rf ?i with _ => _ end] => destruct (getNode rf i)
           end;
    simpl; (split; [lia|]);
    intros ? ? Hin;
    repeat (destruct Hin as [Hin|Hin]; try discriminate Hin);
    try contradiction;
    eexists; left; reflexivity.
Qed.

(** Events about tables whose node is missing from the store or is being
    dragged are dropped: field and width events write nothing, and an
    [add_tables] event that names only such tables writes nothing either. *)
Theorem eventConsumer_skips_missing_and_dragging (rf : ReactFlow) (nodes : list Node.t)
    (overlapGraph : Graph) (filteredSchemas : option (list string))
    (ids : list string) :
  (forall id, In id ids ->
     getNode rf id = None
     \/ exists node, getNode rf id = Some node
                      /\ Js.truthy (Node.dragging node) = true) ->
  (forall id fields w, In id ids ->
     eventConsumer rf nodes overlapGraph filteredSchemas (add_field id fields) = []
     /\ eventConsumer rf nodes overlapGraph filteredSchemas (remove_field id fields) = []
     /\ eventConsumer rf nodes overlapGraph filteredSchemas (update_table id w) = [])
  /\ (forall tables, (forall t, In t tables -> In (DBTable.id t) ids) ->
        eventConsumer rf nodes overlapGraph filteredSchemas (add_tables tables) = []).
Proof.
  intros H. split.
  - intros id fields w Hid. simpl.
    destruct (H id Hid) as [->|(node & -> & ->)]; simpl;
      repeat split; try reflexivity; now destruct (truthyNumber w).
  - intros tables Ht. simpl.
    replace (omap _ (List.filter _ tables)) with (@nil Node.t); [reflexivity|].
    symmetry. induction tables as [|t tables IH]; [reflexivity|]. simpl.
    assert (IH' := IH (fun t' Ht' => Ht t' (or_intror Ht'))).
    destruct (H _ (Ht t (or_introl eq_refl))) as [E|(node & E & Hd)]; rewrite E; simpl.
    + rewrite E. exact IH'.
    + rewrite Hd. exact IH'.
Qed.

End Canvas.

(** ** [Math.round] on a few doubles *)

(** Ties go up: 2.5 to 3, -1.5 to -1, and -0.5 to -0; 20.25 goes to 20. *)
Lemma Math_round_ties :
  Js.round_number (Js.of_dyadic 5 (-1)) = Js.of_Z 3
  /\ Js.round_number (Js.of_dyadic (-3) (-1)) = Js.of_Z (-1)
  /\ Js.round_number (Js.of_dyadic (-1) (-1)) = S754_zero true
  /\ Js.round_number (Js.of_dyadic 81 (-2)) = Js.of_Z 20
  /\ Js.round_number (S754_infinity false) = S754_infinity false
  /\ Js.round_number S754_nan = S754_nan.
Proof. repeat split; vm_compute; reflexivity. Qed.

(** ** Properties of the field editor *)

Lemma TableField_run_cons st ev evs :
  TableField.run st (ev :: evs)
  = (TableField.step st ev).1 ++ TableField.run (TableField.step st ev).2 evs.
Proof. simpl. now destruct (TableField.step st ev). Qed.



(** ** Further properties of the field editor *)

Lemma TableField_run_app st a b :
  TableField.run st (a ++ b) = TableField.run st a ++ TableField.run (stateAfter st a) b.
Proof.
  revert st. induction a as [|ev a IH]; intros st; [reflexivity|].
  change ((ev :: a) ++ b) with (ev :: (a ++ b)).
  rewrite !TableField_run_cons, IH, app_assoc. reflexivity.
Qed.

(** [updateField] is called only when the timer fires, and at most once
    per firing: a run makes no more calls than it has timer events. *)
Theorem updateField_waits_for_the_timer (st : TableField.state)
    (evs : list TableField.event) :
  (length (TableField.run st evs) <= length (List.filter isTimerFires evs))%nat.
Proof.
  revert st. induction evs as [|ev evs IH]; intros st; [simpl; lia|].
  rewrite TableField_run_cons, length_app.
  specialize (IH (TableField.step st ev).2).
  destruct ev; simpl in *; try lia.
  destruct (TableField.debouncedUpdate st); simpl in *; lia.
Qed.

Lemma TableField_quiet_run st evs :
  (forall e, In e evs -> isTimerFires e = false) -> TableField.run st evs = [].
Proof.
  revert st. induction evs as [|ev evs IH]; intros st H; [reflexivity|].
  rewrite TableField_run_cons, IH by (intros; apply H; now right).
  assert (Hev := H ev (or_introl eq_refl)).
  destruct ev; try discriminate Hev; reflexivity.
Qed.

(** Edits made between two firings of the timer overwrite one another:
    when the timer fires, [updateField] gets the update of the last edit
    alone, and what the earlier edits set is not written. *)
Theorem last_edit_wins (st : TableField.state) (evs : list TableField.event)
    (ev : TableField.event) (u : DBField.partial) :
  (forall e, In e evs -> isTimerFires e = false) ->
  editArgs ev = Some u ->
  TableField.run st (evs ++ [ev; TableField.TimerFires]) = [u].
Proof.
  intros Hq Hu. rewrite TableField_run_app, (TableField_quiet_run st evs Hq).
  generalize (stateAfter st evs). intros st'.
  destruct ev; simpl in Hu; try discriminate; injection Hu as <-; reflexivity.
Qed.

(** Unmounting cancels the pending write: until the next edit, no firing
    of the timer calls [updateField]. *)
Theorem unmount_cancels_pending_update (st : TableField.state)
    (rest : list TableField.event) :
  (forall e, In e rest -> editArgs e = None) ->
  TableField.run st (TableField.Unmount :: rest) = [].
Proof.
  intros H. rewrite TableField_run_cons. simpl.
  generalize (TableField.localName st). intros name.
  induction rest as [|e rest IH]; [reflexivity|].
  rewrite TableField_run_cons.
  assert (He := H e (or_introl eq_refl)).
  destruct e; try discriminate He; simpl; apply IH; intros; apply H; now right.
Qed.

Lemma propsAreEqual_spec (a b : DBField.t) :
  propsAreEqual a b = true
  <-> DBField.id a = DBField.id b /\ DBField.name a = DBField.name b
      /\ DataType.id (DBField.type a) = DataType.id (DBField.type b)
      /\ DBField.characterMaximumLength a = DBField.characterMaximumLength b
      /\ DBField.unique a = DBField.unique b
      /\ DBField.primaryKey a = DBField.primaryKey b
      /\ DBField.nullable a = DBField.nullable b
      /\ DBField.comments a = DBField.comments b.
Proof.
  unfold propsAreEqual.
  rewrite !andb_true_iff, !String.eqb_eq, !Bool.eqb_true_iff, !bool_decide_eq_true.
  tauto.
Qed.

(** The comparator of the memoised row is an equivalence on fields. *)
Theorem propsAreEqual_equivalence :
  (forall a, propsAreEqual a a = true)
  /\ (forall a b, propsAreEqual a b = true -> propsAreEqual b a = true)
  /\ (forall a b c, propsAreEqual a b = true -> propsAreEqual b c = true ->
                    propsAreEqual a c = true).
Proof.
  repeat split.
  - intros a. apply propsAreEqual_spec. repeat split.
  - intros a b H. apply propsAreEqual_spec in H. apply propsAreEqual_spec.
    intuition congruence.
  - intros a b c H1 H2. apply propsAreEqual_spec in H1, H2. apply propsAreEqual_spec.
    intuition congruence.
Qed.

(** The memoised row is rendered again after a toggle exactly when the
    toggle changed the field: merging the primary-key update leaves the
    comparator satisfied iff the field already had both flags at that
    value, and merging the nullable update iff it already had that
    nullability. *)
Theorem memo_detects_effective_toggles (field : DBField.t) (v : bool) :
  (forall u, TableField.onPrimaryKeyPressedChange v = [u] ->
     (propsAreEqual field (DBField.spread field u) = true
      <-> DBField.primaryKey field = v /\ DBField.unique field = v))
  /\ (forall u, TableField.onNullablePressedChange v = [u] ->
        (propsAreEqual field (DBField.spread field u) = true
         <-> DBField.nullable field = v)).
Proof.
  split; intros u [= <-]; rewrite propsAreEqual_spec; simpl; intuition congruence.
Qed.

(** A length is sent along with a type change only for a type that the
    dialect lists with [hasCharMaxLength]; a type id the dialect does not
    list is sent as a type of that id and name, without a length. *)
Theorem type_change_length_only_for_sized_types (types : list DataTypeData)
    (dataTypeDataToDataType : DataTypeData -> DataType.t) (field : DBField.t)
    (value : string) (regexMatches : option (list string)) :
  let update := handleDataTypeChange types dataTypeDataToDataType field value regexMatches in
  let listed := List.find (fun v => String.eqb (dtd_id v) value) types in
  (forall len, tu_characterMaximumLength update = Some len ->
     exists dataType, listed = Some dataType
                      /\ dtd_id dataType = value
                      /\ dtd_hasCharMaxLength dataType = Some true
                      /\ tu_type update = dataTypeDataToDataType dataType)
  /\ (listed = None ->
      tu_type update = dataTypeDataToDataType (mkDataTypeData value value None)
      /\ tu_characterMaximumLength update = None).
Proof.
  intros update listed. subst update. unfold handleDataTypeChange. fold listed.
  split.
  - intros len Hlen. simpl in Hlen.
    destruct listed as [dataType|] eqn:E; simpl in Hlen.
    + exists dataType.
      assert (Hid : dtd_id dataType = value).
      { unfold listed in E. apply find_some in E as [_ E]. now apply String.eqb_eq. }
      destruct (dtd_hasCharMaxLength dataType) as [[|]|]; simpl in Hlen;
        rewrite ?andb_false_r in Hlen; try discriminate; auto.
    + rewrite !andb_false_r in Hlen. discriminate.
  - intros ->. simpl. rewrite !andb_false_r. split; reflexivity.
Qed.

(** ** Examples on the sample diagram *)

Import Sample.

(** C1 on the sample data: the table ["lost"] at (NaN, undefined) is
    projected to (0, 0) and the table ["far"] at (Infinity, 0) stays there;
    a move of ["lost"] to (NaN, NaN) is put back to the node's 7 for [x]
    and, the node's [y] being [null], to 0 for [y]; a move to
    (Infinity, 3) is kept. *)
Lemma C1_nan_coordinates_replaced_witness :
  validCoordinate (DBTable.x tableNaN) = false
  /\ validCoordinate (DBTable.y tableNaN) = false
  /\ Node.position (tableToTableNode MIN_TABLE_SIZE showEveryTable tableNaN None)
     = Some (mkXY (Js.Num Js.zero) (Js.Num Js.zero))
  /\ Node.position (tableToTableNode MIN_TABLE_SIZE showEveryTable tableAtInfinity None)
     = Some (mkXY plusInfinity (num 0))
  /\ sanitizeChange surface (NodeChange.position "lost" (Some (mkXY NaN NaN)) None None)
     = NodeChange.position "lost" (Some (mkXY (num 7) (Js.Num Js.zero))) None None
  /\ sanitizeChange surface
       (NodeChange.position "lost" (Some (mkXY plusInfinity (num 3))) None None)
     = NodeChange.position "lost" (Some (mkXY plusInfinity (num 3))) None None.
Proof.
  destruct (C1_nan_coordinates_replaced MIN_TABLE_SIZE showEveryTable) as [HA HB].
  split; [reflexivity|]. split; [reflexivity|]. split; [|split; [|split]].
  - destruct (HA tableNaN None) as (pos & Hpos & _ & _ & _ & _ & Hx & Hy & _).
    rewrite Hpos. destruct pos as [px py]. simpl in Hx, Hy.
    rewrite (Hx eq_refl), (Hy eq_refl). reflexivity.
  - destruct (HA tableAtInfinity None) as (pos & Hpos & _ & Hy & Hx & _).
    rewrite Hpos. destruct pos as [px py]. simpl in Hx, Hy.
    rewrite (Hx false eq_refl), (Hy eq_refl). reflexivity.
  - destruct (HB surface "lost" (mkXY NaN NaN) None None)
      as (pos & Hs & _ & _ & _ & _ & Hx & Hy).
    rewrite Hs. destruct pos as [px py]. simpl in Hx, Hy.
    destruct (Hx eq_refl) as [Hx1 _]. destruct (Hy eq_refl) as [_ Hy2].
    destruct (Hx1 (Js.of_Z 7) eq_refl) as [-> _]; [discriminate|].
    destruct Hy2 as [-> _]; [discriminate|]. reflexivity.
  - destruct (HB surface "lost" (mkXY plusInfinity (num 3)) None None)
      as (pos & Hs & _ & Hy & Hx & _).
    rewrite Hs. destruct pos as [px py]. simpl in Hx, Hy.
    rewrite (Hx false eq_refl), (Hy eq_refl). reflexivity.
Defined.

(** C1 as stated fails on an infinite coordinate: [tableToTableNode] lets
    [Infinity] through, since only NaN is tested for. *)
Lemma C1_counterexample_infinite_coordinate :
  ~ (forall (table : DBTable.t) (filteredSchemas : option (list string))
            (pos : XYPosition),
        Js.isFinite (DBTable.x table) = false \/ Js.isFinite (DBTable.y table) = false ->
        Node.position (tableToTableNode MIN_TABLE_SIZE showEveryTable table filteredSchemas)
        = Some pos ->
        Js.isFinite (x pos) = true /\ Js.isFinite (y pos) = true).
Proof.
  intros H.
  destruct (H tableAtInfinity None (mkXY plusInfinity (num 0)) (or_introl eq_refl) eq_refl)
    as [Hx _].
  discriminate Hx.
Qed.

(** C2 on a drag of ["users"]: two moves, then the release at
    (10.5, 20.25). The moves reach nothing; the release gives one patch and
    one trigger, and the patch stores (11, 20) in ["users"] and leaves
    ["orders"] as it is. *)
Lemma C2_drag_then_single_patch_witness :
  (domainPatches (onNodesChangeHandler (diagram postgresql false) surface [dragMove; dragMove])
   = []
   /\ List.filter is_overlapTrigger
        (onNodesChangeHandler (diagram postgresql false) surface [dragMove; dragMove]) = [])
  /\ exists u,
       domainPatches
         (onNodesChangeHandler (diagram postgresql false) surface [dragMove; dragRelease])
       = [u]
       /\ List.filter is_overlapTrigger
            (onNodesChangeHandler (diagram postgresql false) surface [dragMove; dragRelease])
          = [updateOverlappingGraphOnChangesDebounced
               [NodeChange.position "users" (Some (mkXY tenAndHalf twentyAndQuarter))
                  (Some false) (Node.measured usersNode)] []]
       /\ (forall t', In t' (u [users; orders]) -> DBTable.id t' = "users" ->
                      DBTable.x t' = num 11 /\ DBTable.y t' = num 20)
       /\ (exists t', In t' (u [users; orders]) /\ DBTable.id t' = "users"
                      /\ DBTable.x t' = num 11 /\ DBTable.y t' = num 20
                      /\ DBTable.width t' = DBTable.width users
                      /\ DBTable.schema t' = DBTable.schema users
                      /\ DBTable.fields t' = DBTable.fields users)
       /\ forall t, In t (u [users; orders]) -> DBTable.id t = "orders" -> t = orders.
Proof.
  split.
  - apply (C2_drag_then_single_patch (diagram postgresql false) surface [dragMove; dragMove]).
    repeat constructor; unfold dragMove; eauto.
  - destruct (C2_drag_then_single_patch (diagram postgresql false) surface
                [dragMove; dragRelease]) as (H1 & _ & H3).
    destruct (H3 [dragMove] [] "users" (mkXY tenAndHalf twentyAndQuarter) (Some false) None
                usersNode eq_refl eq_refl eq_refl eq_refl)
      as (u & Hu & Ht & _ & Hall & Hpatch).
    { intros p' d' m' []. }
    exists u. split; [exact Hu|]. split; [exact Ht|]. split; [|split].
    + intros t' Hin Hid. exact (Hall [users; orders] t' Hin Hid).
    + apply (Hpatch [users; orders] users); [now left | reflexivity |].
      right. intros [Hc|[Hc|[]]]; discriminate Hc.
    + intros t Hin Hid.
      assert (Hold : In t [users; orders]).
      { apply (H1 "orders" u [users; orders] t); try assumption.
        - intros id p d m [Hc|[Hc|[]]] Hi; inversion Hc; subst; discriminate.
        - rewrite Hu. now left. }
      destruct Hold as [<-|[<-|[]]]; [discriminate Hid | reflexivity].
Defined.

(** C2 as stated fails on the release at (10.5, 20.25): the one patch does
    not contain that position, since [updateTablesState] receives each
    coordinate as rounded by [Math.round], here (11, 20). *)
Lemma C2_counterexample_patch_is_rounded :
  ~ (forall (pre post : list NodeChange.t) (id : string) (p : XYPosition)
            (d : option bool) (m : option Dimensions) (node : Node.t)
            (tables : list DBTable.t) (t : DBTable.t),
        Js.truthy d = false ->
        validCoordinate (x p) = true -> validCoordinate (y p) = true ->
        getNode surface id = Some node -> Node.type node = Node.table ->
        (forall p' d' m', In (NodeChange.position id (Some p') d' m') post ->
                          Js.truthy d' = true) ->
        ~ In (NodeChange.remove id) (pre ++ NodeChange.position id (Some p) d m :: post) ->
        In t tables -> DBTable.id t = id ->
        exists u,
          domainPatches
            (onNodesChangeHandler (diagram postgresql false) surface
               (pre ++ NodeChange.position id (Some p) d m :: post)) = [u]
          /\ exists t', In t' (u tables) /\ DBTable.id t' = id
                        /\ DBTable.x t' = x p /\ DBTable.y t' = y p).
Proof.
  intros H.
  destruct (H [dragMove] [] "users" (mkXY tenAndHalf twentyAndQuarter) (Some false) None
              usersNode [users; orders] users eq_refl eq_refl eq_refl eq_refl eq_refl)
    as (u & Hu & t' & Hin & Hid & Hx & _).
  - intros p' d' m' [].
  - intros [Hc|[Hc|[]]]; discriminate Hc.
  - now left.
  - reflexivity.
  - destruct (onNodesChangeHandler_table_calls (diagram postgresql false) surface
                ([dragMove] ++ [dragRelease])) as [HP _].
    change ([dragMove] ++
            NodeChange.position "users" (Some (mkXY tenAndHalf twentyAndQuarter))
              (Some false) None :: []) with ([dragMove] ++ [dragRelease]) in Hu.
    rewrite HP in Hu. vm_compute nonEmpty in Hu. cbn [orb] in Hu.
    injection Hu as <-.
    apply (In_tablesUpdater_xy _ _ _ _ (num 11, num 20)) in Hin as [Hx' _].
    + rewrite Hx in Hx'. vm_compute in Hx'. discriminate Hx'.
    + rewrite Hid. vm_compute. reflexivity.
Qed.

(** C3. Two relationships into different (table, field) pairs, ["ab"]/["c"]
    and ["a"]/["bc"], share the key ["abc"]: the second one gets index 1
    although it is the only relationship into its pair. *)
Theorem C3_colliding_pairs_share_a_counter :
  targetPair relIntoAbC <> targetPair relIntoABc
  /\ targetKey relIntoAbC = targetKey relIntoABc
  /\ map Edge.targetHandle
       (relationshipsToEdges LEFT_HANDLE_ID_PREFIX TARGET_ID_PREFIX [relIntoAbC; relIntoABc])
     = ["target_rel_0_c"; "target_rel_1_bc"].
Proof. split; [discriminate|]. split; vm_compute; reflexivity. Qed.

(** C4 on the read-only sample diagram. *)
Lemma C4_readonly_blocks_removals_witness :
  readonly (diagram postgresql true) = true
  /\ onEdgesChangeHandler (diagram postgresql true) surface
       [EdgeChange.remove "r3"; EdgeChange.remove "d1"]
     = [onEdgesChange []]
  /\ forall c,
       c ∈ onNodesChangeHandler (diagram postgresql true) surface
             [NodeChange.remove "users"; NodeChange.remove "zone"; dragRelease] ->
       is_removeArea c = false
       /\ forall u tables, c = updateTablesState u ->
            map DBTable.id (u tables) = map DBTable.id tables.
Proof.
  split; [reflexivity|]. split; [reflexivity|].
  intros c Hc.
  destruct (C4_readonly_blocks_removals (diagram postgresql true) surface
              [EdgeChange.remove "r3"; EdgeChange.remove "d1"]
              [NodeChange.remove "users"; NodeChange.remove "zone"; dragRelease]
              eq_refl) as [_ HN].
  destruct (HN c Hc) as (Ha & Hu & _). split; assumption.
Defined.

(** C5 on a text-to-int gesture and on an int-to-int gesture. *)
Lemma C5_connect_incompatible_or_create_witness :
  onConnectHandler TOP_SOURCE_HANDLE_ID_PREFIX BOTTOM_SOURCE_HANDLE_ID_PREFIX sameTypeId
    (diagram postgresql false) connectNoteToId
  = [toast incompatibleToast]
  /\ onConnectHandler TOP_SOURCE_HANDLE_ID_PREFIX BOTTOM_SOURCE_HANDLE_ID_PREFIX sameTypeId
       (diagram postgresql false) connectUserIdToId
     = [createRelationship (mkNewRelationship "orders" "users" "userid" "id")].
Proof.
  split.
  - apply (C5_connect_incompatible_or_create TOP_SOURCE_HANDLE_ID_PREFIX
             BOTTOM_SOURCE_HANDLE_ID_PREFIX sameTypeId (diagram postgresql false)
             connectNoteToId ordersNote usersId); reflexivity.
  - apply (C5_connect_incompatible_or_create TOP_SOURCE_HANDLE_ID_PREFIX
             BOTTOM_SOURCE_HANDLE_ID_PREFIX sameTypeId (diagram postgresql false)
             connectUserIdToId ordersUserId usersId); reflexivity.
Defined.

(** C6 on ["users"], once idle and once while it is dragged. *)
Lemma C6_reprojection_carry_over_witness :
  (let node := projectTable MIN_TABLE_SIZE showEveryTable (mkGraph ∅ 0) false None
                 [usersNode; ordersNode] users in
   Node.measured node = None
   /\ Node.position node = Some (mkXY (num 5) (num 5))
   /\ Node.selected node = Some true)
  /\ (let node := projectTable MIN_TABLE_SIZE showEveryTable (mkGraph ∅ 0) false None
                    [usersNodeDragged; ordersNode] users in
      Node.measured node = Some usersMeasured
      /\ Node.dragging node = Some true).
Proof.
  split.
  - destruct (C6_reprojection_carry_over MIN_TABLE_SIZE showEveryTable (mkGraph ∅ 0) false
                None [usersNode; ordersNode] users usersNode eq_refl)
      as (_ & Hm & Hp & _ & Hs & _).
    split; [exact (Hm eq_refl)|]. split; [exact (Hp eq_refl) | exact Hs].
  - destruct (C6_reprojection_carry_over MIN_TABLE_SIZE showEveryTable (mkGraph ∅ 0) false
                None [usersNodeDragged; ordersNode] users usersNodeDragged eq_refl)
      as (Hm & _ & _ & _ & _ & Hd & _).
    split; [exact (Hm eq_refl) | now apply Hd].
Defined.

(** C6 as stated fails on an idle node: its position and selection are
    carried over although nothing is being dragged or resized. *)
Lemma C6_counterexample_idle_node_keeps_position :
  ~ (forall (overlapGraph : Graph) (highlightOverlappingTables : bool)
            (filteredSchemas : option (list string)) (currentNodes : list Node.t)
            (table : DBTable.t) (existingNode : Node.t),
        List.find (fun n => String.eqb (Node.id n) (DBTable.id table)) currentNodes
        = Some existingNode ->
        Js.truthy (Node.dragging existingNode) || Js.truthy (Node.resizing existingNode)
        = false ->
        let node := projectTable MIN_TABLE_SIZE showEveryTable overlapGraph
                      highlightOverlappingTables filteredSchemas currentNodes table in
        let derived := tableToTableNode MIN_TABLE_SIZE showEveryTable table filteredSchemas in
        Node.position node = Node.position derived
        /\ Node.selected node = Node.selected derived).
Proof.
  intros H.
  destruct (H (mkGraph ∅ 0) false None [usersNode; ordersNode] users usersNode
              eq_refl eq_refl) as [_ Hs].
  discriminate Hs.
Qed.


(** C8. The area ["zone"] has a NaN [x]; its node has a NaN position,
    where the table projection would have put 0. *)
Theorem C8_area_nan_position_not_finite :
  Node.position (areaToAreaNode areaNaN) = Some (mkXY NaN (num 0))
  /\ Js.isFinite NaN = false
  /\ Node.position
       (tableToTableNode MIN_TABLE_SIZE showEveryTable
          (DBTable.mk "zone" (Area.x areaNaN) (Area.y areaNaN) None None []) None)
     = Some (mkXY (Js.Num Js.zero) (num 0)).
Proof. repeat split. Qed.

(** C9 on PostgreSQL with the preference off. *)
Lemma C9_dependency_edges_hidden_rule_witness :
  let e := dependencyToEdge clickhouse TOP_SOURCE_HANDLE_ID_PREFIX TARGET_DEP_PREFIX
             false postgresql ordersDependsOnUsers (Some 0%nat) in
  let r := relationshipToEdge LEFT_HANDLE_ID_PREFIX TARGET_ID_PREFIX ordersToUsers
             (Some 0%nat) in
  projectEdges clickhouse LEFT_HANDLE_ID_PREFIX TARGET_ID_PREFIX TOP_SOURCE_HANDLE_ID_PREFIX
    TARGET_DEP_PREFIX (diagram postgresql false) false = [r; e]
  /\ Edge.type e = Edge.dependency_edge
  /\ Edge.hidden e = Some true
  /\ Edge.type r = Edge.relationship_edge
  /\ Edge.hidden r = None.
Proof.
  intros e r.
  assert (Hp : projectEdges clickhouse LEFT_HANDLE_ID_PREFIX TARGET_ID_PREFIX
                 TOP_SOURCE_HANDLE_ID_PREFIX TARGET_DEP_PREFIX (diagram postgresql false) false
               = [r; e]) by (vm_compute; reflexivity).
  split; [exact Hp|]. split; [reflexivity|].
  assert (He : e ∈ projectEdges clickhouse LEFT_HANDLE_ID_PREFIX TARGET_ID_PREFIX
                 TOP_SOURCE_HANDLE_ID_PREFIX TARGET_DEP_PREFIX (diagram postgresql false) false)
    by (rewrite Hp; right; left).
  assert (Hr : r ∈ projectEdges clickhouse LEFT_HANDLE_ID_PREFIX TARGET_ID_PREFIX
                 TOP_SOURCE_HANDLE_ID_PREFIX TARGET_DEP_PREFIX (diagram postgresql false) false)
    by (rewrite Hp; left).
  split.
  - destruct (C9_dependency_edges_hidden_rule clickhouse LEFT_HANDLE_ID_PREFIX
                TARGET_ID_PREFIX TOP_SOURCE_HANDLE_ID_PREFIX TARGET_DEP_PREFIX
                (diagram postgresql false) false e He) as [Hdep _].
    destruct (Hdep eq_refl) as [Hhid _]. apply Hhid. split; [reflexivity | discriminate].
  - split; [reflexivity|].
    destruct (C9_dependency_edges_hidden_rule clickhouse LEFT_HANDLE_ID_PREFIX
                TARGET_ID_PREFIX TOP_SOURCE_HANDLE_ID_PREFIX TARGET_DEP_PREFIX
                (diagram postgresql false) false r Hr) as [_ Hrel].
    exact (Hrel eq_refl).
Defined.



(** ** Further examples on the sample diagram *)

(** A read-only batch with a removal and a release behaves as the writable
    batch with the release alone. *)
Lemma readonly_handlers_drop_removes_only_witness :
  onNodesChangeHandler (diagram postgresql true) surface
    [NodeChange.remove "users"; dragRelease]
  = onNodesChangeHandler (diagram postgresql false) surface [dragRelease]
  /\ onEdgesChangeHandler (diagram postgresql true) surface [EdgeChange.remove "r3"]
     = onEdgesChangeHandler (diagram postgresql false) surface [].
Proof.
  apply (readonly_handlers_drop_removes_only (diagram postgresql true)
           (diagram postgresql false) surface
           [NodeChange.remove "users"; dragRelease] [EdgeChange.remove "r3"]);
    reflexivity.
Defined.

(** A move of a node that is not in the store and a selection. *)
Lemma stale_node_changes_only_forwarded_witness :
  onNodesChangeHandler (diagram postgresql false) surface
    [moveGhost; NodeChange.select "users" true]
  = [onNodesChange
       (changesToApply (diagram postgresql false) surface
          [moveGhost; NodeChange.select "users" true])].
Proof.
  apply stale_node_changes_only_forwarded.
  intros c [<-|[<-|[]]]; [left | right]; reflexivity.
Defined.

(** The updater of a release and a removal, applied to the two tables. *)
Lemma tablesUpdater_only_moves_or_drops_witness :
  exists u,
    In u (domainPatches
            (onNodesChangeHandler (diagram postgresql false) surface
               [dragRelease; NodeChange.remove "orders"]))
    /\ sublist
         (map (fun t => (DBTable.id t, DBTable.width t, DBTable.schema t, DBTable.fields t))
            (u [users; orders]))
         (map (fun t => (DBTable.id t, DBTable.width t, DBTable.schema t, DBTable.fields t))
            [users; orders]).
Proof.
  set (rel := findRelevantNodesChanges surface
                (changesToApply (diagram postgresql false) surface
                   [dragRelease; NodeChange.remove "orders"]) Node.table).
  assert (Hin : In (tablesUpdater (positionChanges rel) (removeChanges rel))
                  (domainPatches
                     (onNodesChangeHandler (diagram postgresql false) surface
                        [dragRelease; NodeChange.remove "orders"])))
    by (left; reflexivity).
  eexists. split; [exact Hin|].
  apply (tablesUpdater_only_moves_or_drops (diagram postgresql false) surface
           [dragRelease; NodeChange.remove "orders"] _ _ Hin).
Defined.

(** Removing the table ["users"] and the area ["zone"]. *)
Lemma removal_reaches_the_store_witness :
  (exists u,
      domainPatches
        (onNodesChangeHandler (diagram postgresql false) surface
           [NodeChange.remove "users"; NodeChange.remove "zone"]) = [u]
      /\ forall tables t, In t (u tables) -> DBTable.id t <> "users")
  /\ In (removeArea "zone")
       (onNodesChangeHandler (diagram postgresql false) surface
          [NodeChange.remove "users"; NodeChange.remove "zone"]).
Proof.
  split.
  - apply (removal_reaches_the_store (diagram postgresql false) surface
             [NodeChange.remove "users"; NodeChange.remove "zone"] "users" usersNode);
      [reflexivity | now left | reflexivity | reflexivity].
  - apply (removal_reaches_the_store (diagram postgresql false) surface
             [NodeChange.remove "users"; NodeChange.remove "zone"] "zone" zoneNode);
      [reflexivity | right; now left | reflexivity | reflexivity].
Defined.

(** ["users"] while it is resized. *)
Lemma resizing_batch_sends_an_empty_patch_witness :
  exists u,
    domainPatches (onNodesChangeHandler (diagram postgresql false) surface [resizeUsers true])
    = [u]
    /\ (forall tables, u tables = tables)
    /\ List.filter is_overlapTrigger
         (onNodesChangeHandler (diagram postgresql false) surface [resizeUsers true])
       = [updateOverlappingGraphOnChangesDebounced [] [resizeUsers true]].
Proof.
  apply resizing_batch_sends_an_empty_patch; [discriminate|].
  intros c [<-|[]]. exists "users", (Some usersMeasured), usersNode. repeat split.
Defined.

(** ["users"] when the resize ends. *)
Lemma settled_resize_is_only_forwarded_witness :
  onNodesChangeHandler (diagram postgresql false) surface [resizeUsers false]
  = [onNodesChange [resizeUsers false]].
Proof.
  apply settled_resize_is_only_forwarded.
  intros c [<-|[]]. exists "users", (Some usersMeasured), (Some false). split; reflexivity.
Defined.

(** The area ["zone"] released at (10.5, NaN): 10.5 is kept as it is and
    the NaN is replaced by the stored 0. *)
Lemma area_release_forwarded_unrounded_witness :
  In (updateArea "zone"
        {| Area.p_x := Some tenAndHalf; Area.p_y := Some (num 0);
           Area.p_width := None; Area.p_height := None |})
     (onNodesChangeHandler (diagram postgresql false) surface [releaseZone]).
Proof.
  apply (area_release_forwarded_unrounded (diagram postgresql false) surface [releaseZone]
           "zone" (mkXY tenAndHalf NaN) (Some false) None zoneNode);
    [now left | reflexivity | reflexivity | reflexivity].
Defined.

(** Removing the edge ["r3"] and an edge that is no longer there. *)
Lemma edge_removals_are_the_resolved_ones_witness :
  exists ids,
    In (removeRelationships ids)
       (onEdgesChangeHandler (diagram postgresql false) surface
          [EdgeChange.remove "r3"; EdgeChange.remove "gone"])
    /\ In "r3" ids.
Proof.
  destruct (edge_removals_are_the_resolved_ones (diagram postgresql false) surface
              [EdgeChange.remove "r3"; EdgeChange.remove "gone"] eq_refl) as [H _].
  apply (H "r3"). exists "r3", ordersToUsersEdge, ordersToUsers, None.
  repeat split. now left.
Defined.

(** A gesture from a field that the store does not know. *)
Lemma onConnect_one_call_at_most_witness :
  onConnectHandler TOP_SOURCE_HANDLE_ID_PREFIX BOTTOM_SOURCE_HANDLE_ID_PREFIX sameTypeId
    (diagram postgresql false)
    (mkConnection "orders" "users" (Some "left_rel_nope") (Some "target_rel_0_id"))
  = [].
Proof.
  apply (onConnect_one_call_at_most TOP_SOURCE_HANDLE_ID_PREFIX
           BOTTOM_SOURCE_HANDLE_ID_PREFIX sameTypeId (diagram postgresql false));
    [reflexivity | reflexivity | left; reflexivity].
Defined.

(** ["id"] comes back from its handle; ["user_id"] would not. *)
Lemma handleFieldId_recovers_field_id_witness :
  handleFieldId (Some ("target_rel_0" +:+ "_" +:+ "id")) = "id"
  /\ handleFieldId (Some ("left_rel" +:+ "_" +:+ "user_id")) <> "user_id".
Proof.
  split.
  - apply handleFieldId_recovers_field_id. simpl. intuition discriminate.
  - intros H. apply handleFieldId_recovers_field_id in H. apply H. simpl. tauto.
Defined.

(** The edge of the relationship from [orders.userid] to [users.id]. *)
Lemma reconnecting_a_projected_edge_witness :
  let e := relationshipToEdge LEFT_HANDLE_ID_PREFIX TARGET_ID_PREFIX ordersToUsers
             (Some 0%nat) in
  onConnectHandler TOP_SOURCE_HANDLE_ID_PREFIX BOTTOM_SOURCE_HANDLE_ID_PREFIX sameTypeId
    (diagram postgresql false)
    (mkConnection (Edge.source e) (Edge.target e) (Some (Edge.sourceHandle e))
       (Some (Edge.targetHandle e)))
  = [createRelationship (mkNewRelationship "orders" "users" "userid" "id")].
Proof.
  apply (reconnecting_a_projected_edge LEFT_HANDLE_ID_PREFIX TARGET_ID_PREFIX
           TOP_SOURCE_HANDLE_ID_PREFIX BOTTOM_SOURCE_HANDLE_ID_PREFIX sameTypeId
           (diagram postgresql false) ordersToUsers (Some 0%nat) "left_rel"
           ordersUserId usersId);
    try reflexivity; simpl; intuition discriminate.
Defined.

(** The table ["lost"], NaN in the store and with a node whose [y] is
    [null], is placed at the origin. *)
Lemma reprojected_table_nodes_are_placed_witness :
  let db := mkChartDB [tableNaN] [] [] [] lookupField postgresql None false in
  let node := projectTable MIN_TABLE_SIZE showEveryTable (mkGraph ∅ 0) false None
                [lostNode] tableNaN in
  Node.position node = Some (mkXY (Js.Num Js.zero) (Js.Num Js.zero))
  /\ validPosition (Node.position node) = true
  /\ nodeColor node = "#888".
Proof.
  intros db node. split; [reflexivity|].
  apply (reprojected_table_nodes_are_placed MIN_TABLE_SIZE showEveryTable db
           (mkGraph ∅ 0) false [lostNode] node); [now left | reflexivity].
Defined.

(** ["users"] overlaps ["orders"]. *)
Lemma overlapping_flag_implies_warning_witness :
  let node := projectTable MIN_TABLE_SIZE showEveryTable usersOverOrders false None
                [usersNode] users in
  Node.payload node = Node.TableData users true (Some false)
  /\ hasOverlappingTables usersOverOrders = true.
Proof.
  intros node.
  assert (Hp : Node.payload node = Node.TableData users true (Some false))
    by (vm_compute; reflexivity).
  split; [exact Hp|].
  apply (overlapping_flag_implies_warning MIN_TABLE_SIZE showEveryTable
           (diagram postgresql false) usersOverOrders false [usersNode] node users true
           (Some false)); [now left | exact Hp | reflexivity].
Defined.

(** Dependency handles on the sample list: the two edges into ["users"]
    get the indexes 0 and 1, the two into ["__proto__"] both get NaN. *)
Lemma dependency_handles_are_distinct_witness :
  let edges := dependenciesToEdges clickhouse TOP_SOURCE_HANDLE_ID_PREFIX TARGET_DEP_PREFIX
                 true postgresql mixedDependencies in
  map Edge.targetHandle edges
  = ["target_dep_0_users"; "target_dep_NaN___proto__";
     "target_dep_1_users"; "target_dep_NaN___proto__"]
  /\ List.NoDup
       (map Edge.targetHandle
          (List.filter (fun e => String.eqb (Edge.target e) "users") edges))
  /\ Forall (fun e => Edge.target e = "__proto__" ->
                      Edge.targetHandle e = "target_dep_NaN___proto__") edges.
Proof.
  intros edges. split; [vm_compute; reflexivity|].
  destruct (dependency_handles_are_distinct clickhouse TOP_SOURCE_HANDLE_ID_PREFIX
              TARGET_DEP_PREFIX true postgresql mixedDependencies "users") as [Hdistinct _].
  destruct (dependency_handles_are_distinct clickhouse TOP_SOURCE_HANDLE_ID_PREFIX
              TARGET_DEP_PREFIX true postgresql mixedDependencies "__proto__") as [_ Hproto].
  split.
  - apply Hdistinct. discriminate.
  - apply List.Forall_forall. intros e He Ht. exact (Hproto e He Ht).
Defined.


(** The pending update of a node that has left the store. *)
Lemma pending_overlap_update_skips_missing_nodes_witness :
  updateOverlappingGraphOnChanges markOverlapping surface [usersNode; ordersNode]
    usersOverOrders [moveGhost] []
  = [setOverlapGraph usersOverOrders].
Proof.
  apply (pending_overlap_update_skips_missing_nodes markOverlapping surface
           [usersNode; ordersNode] usersOverOrders [moveGhost] []).
  intros c [<-|[]]. left. reflexivity.
Defined.

(** Removing ["users"] calls the trigger, which then writes nothing. *)
Lemma batch_writes_overlap_graph_at_most_once_witness :
  List.filter is_overlapTrigger
    (onNodesChangeHandler (diagram postgresql false) surface [NodeChange.remove "users"])
  = [updateOverlappingGraphOnChangesDebounced [] []]
  /\ fireOverlapTriggers markOverlapping surface [usersNode; ordersNode] usersOverOrders
       (onNodesChangeHandler (diagram postgresql false) surface [NodeChange.remove "users"])
     = [].
Proof.
  split; [reflexivity|].
  apply (batch_writes_overlap_graph_at_most_once markOverlapping
           (diagram postgresql false) surface surface [usersNode; ordersNode]
           usersOverOrders [NodeChange.remove "users"]).
  intros c [<-|[]]. reflexivity.
Defined.

(** A field added to ["orders"]. *)
Lemma eventConsumer_writes_graph_at_most_once_witness :
  let measured := mkDim None (Some (Js.Num (rowsHeight 1))) in
  In (setNodesDataMeasured "orders" measured)
     (eventConsumer showEveryTable markOverlapping noOverlaps dropVertex rowsHeight
        surface [usersNode; ordersNode] usersOverOrders None
        (add_field "orders" [ordersNote]))
  /\ exists g,
       In (setOverlapGraph g)
          (eventConsumer showEveryTable markOverlapping noOverlaps dropVertex rowsHeight
             surface [usersNode; ordersNode] usersOverOrders None
             (add_field "orders" [ordersNote])).
Proof.
  intros measured.
  assert (Hin : In (setNodesDataMeasured "orders" measured)
                  (eventConsumer showEveryTable markOverlapping noOverlaps dropVertex
                     rowsHeight surface [usersNode; ordersNode] usersOverOrders None
                     (add_field "orders" [ordersNote])))
    by (right; now left).
  split; [exact Hin|].
  destruct (eventConsumer_writes_graph_at_most_once showEveryTable markOverlapping
              noOverlaps dropVertex rowsHeight surface [usersNode; ordersNode]
              usersOverOrders None (add_field "orders" [ordersNote])) as [_ H].
  exact (H _ _ Hin).
Defined.

(** Events about ["users"] while it is dragged, and about a table that
    has no node. *)
Lemma eventConsumer_skips_missing_and_dragging_witness :
  eventConsumer showEveryTable markOverlapping noOverlaps dropVertex rowsHeight
    surfaceWhileDragging [usersNodeDragged; ordersNode] usersOverOrders None
    (add_field "users" [usersId]) = []
  /\ eventConsumer showEveryTable markOverlapping noOverlaps dropVertex rowsHeight
       surfaceWhileDragging [usersNodeDragged; ordersNode] usersOverOrders None
       (update_table "ghost" (Some (Js.of_Z 300))) = []
  /\ eventConsumer showEveryTable markOverlapping noOverlaps dropVertex rowsHeight
       surfaceWhileDragging [usersNodeDragged; ordersNode] usersOverOrders None
       (add_tables [users]) = [].
Proof.
  destruct (eventConsumer_skips_missing_and_dragging showEveryTable markOverlapping
              noOverlaps dropVertex rowsHeight surfaceWhileDragging
              [usersNodeDragged; ordersNode] usersOverOrders None ["users"; "ghost"])
    as [Hfield Htables].
  - intros id [<-|[<-|[]]]; [right; exists usersNodeDragged; split; reflexivity | now left].
  - split; [apply (Hfield "users" [usersId] None); now left|].
    split; [apply (Hfield "ghost" [] (Some (Js.of_Z 300))); right; now left|].
    apply Htables. intros t [<-|[]]. now left.
Defined.

(** A name edit and a nullable toggle are followed by the primary-key
    toggle before the timer fires: only the last update is written. *)
Lemma last_edit_wins_witness :
  TableField.run (TableField.mount ordersUserId)
    ([TableField.NameInput "owner"; TableField.NullableToggle false]
       ++ [TableField.PrimaryKeyToggle true; TableField.TimerFires])
  = [DBField.mkPartial None None None (Some true) (Some true) None].
Proof.
  apply last_edit_wins; [|reflexivity].
  intros e [<-|[<-|[]]]; reflexivity.
Defined.

(** The row is unmounted with an edit pending. *)
Lemma unmount_cancels_pending_update_witness :
  TableField.run
    (TableField.mkState "owner"
       (Some (DBField.mkPartial (Some "owner") None None None None None)))
    (TableField.Unmount :: [TableField.TimerFires; TableField.TimerFires])
  = [].
Proof.
  apply unmount_cancels_pending_update. intros e [<-|[<-|[]]]; reflexivity.
Defined.

(** Two fields that differ in the display name of their type only. *)
Lemma propsAreEqual_equivalence_witness :
  propsAreEqual usersId usersIdRenamedType = true
  /\ propsAreEqual usersIdRenamedType usersId = true.
Proof.
  split; [reflexivity|].
  destruct propsAreEqual_equivalence as (_ & Hsym & _).
  apply Hsym. reflexivity.
Defined.

(** [users.id] is primary key and unique already; it is nullable-free. *)
Lemma memo_detects_effective_toggles_witness :
  propsAreEqual usersId
    (DBField.spread usersId (DBField.mkPartial None None None (Some true) (Some true) None))
  = true
  /\ propsAreEqual usersId
       (DBField.spread usersId (DBField.mkPartial None None None None None (Some true)))
     = false.
Proof.
  destruct (memo_detects_effective_toggles usersId true) as [Hpk Hnull].
  split.
  - apply (Hpk _ eq_refl). split; reflexivity.
  - apply not_true_iff_false. intros H. apply (Hnull _ eq_refl) in H. discriminate H.
Defined.

(** [varchar(32)] picked from the list, and a type the list does not
    have. *)
Lemma type_change_length_only_for_sized_types_witness :
  (exists dataType,
      List.find (fun v => String.eqb (dtd_id v) "varchar") [varcharData; intData]
      = Some dataType
      /\ dtd_hasCharMaxLength dataType = Some true)
  /\ tu_characterMaximumLength
       (handleDataTypeChange [varcharData; intData] toDataType ordersNote "uuid"
          (Some ["uuid(4)"; "4"])) = None.
Proof.
  split.
  - destruct (type_change_length_only_for_sized_types [varcharData; intData] toDataType
                ordersNote "varchar" (Some ["varchar(32)"; "32"])) as [H _].
    destruct (H (Some "32") eq_refl) as (dataType & Hfind & _ & Hsized & _).
    exists dataType. split; assumption.
  - destruct (type_change_length_only_for_sized_types [varcharData; intData] toDataType
                ordersNote "uuid" (Some ["uuid(4)"; "4"])) as [_ H].
    apply H. reflexivity.
Defined.
